(** * OpenRSVP command-line clients: configuration, HTTP client, error classes

    A shallow embedding of the configuration resolver
    ([openrsvp_cli/config.py]), the API client ([openrsvp_cli/client.py]),
    the [config set-base-url] command ([openrsvp_cli/config_cli.py]), the
    command handlers ([openrsvp_cli/events.py], [rsvps.py], [channels.py])
    and the stand-alone [invite] client ([invite/cli.py]), with the
    properties the specification states about them.

    Conventions.
    - A Python [str] is a [string]; each character is read as the code point
      of the same number (0..255).
    - [Optional[str]] is [option string]; [None] is [None].
    - Values produced by [tomllib.load] and by [response.json()] are [pyval]s.
    - A function that may raise returns a [result]; [except Exception] clauses
      are pattern matches on [Raise].
    - What the libraries do is given from outside: [tomllib] is a parameter,
      [httpx] and the remote side are a [Http.network], and [rich] is a
      [Rich.Console] wherever the model does not decide what it does. *)

From Stdlib Require Import ZArith Ascii String List Bool Lia.
From stdpp Require Import base option gmap strings pretty list fin_maps.

Set Warnings "-register-all".
Open Scope string_scope.

(** ** The fragment of the Python runtime the programs rely on *)

Module Py.

(** Values of [tomllib.load] and of [json.loads]. A [float] or a date/time
    value is only ever tested for truth and printed by these programs, so it
    is carried by those observations: its truth value and its [str]/[repr]
    texts. Dictionaries keep insertion order, as in Python. *)
Inductive pyval : Type :=
  | PNone
  | PBool (b : bool)
  | PInt (z : Z)
  | PFloat (nonzero : bool) (repr_text : string)
  | PDatetime (str_text repr_text : string)
  | PStr (s : string)
  | PList (items : list pyval)
  | PDict (entries : list (string * pyval)).

(** [bool(v)]. *)
Definition truthy (v : pyval) : bool :=
  match v with
  | PNone => false
  | PBool b => b
  | PInt z => negb (z =? 0)%Z
  | PFloat nz _ => nz
  | PDatetime _ _ => true
  | PStr s => negb (String.eqb s "")
  | PList l => match l with [] => false | _ => true end
  | PDict kv => match kv with [] => false | _ => true end
  end.

(** [a or b] on values. *)
Definition por (a b : pyval) : pyval := if truthy a then a else b.

(** [isinstance(v, str)] and [isinstance(v, dict)]. *)
Definition is_str (v : pyval) : bool :=
  match v with PStr _ => true | _ => false end.

Definition is_dict (v : pyval) : bool :=
  match v with PDict _ => true | _ => false end.

(** [d.get(k)] and [d.get(k, default)] on the entries of a dictionary: the
    first entry under the key. [None] stands for a missing key. *)
Fixpoint assoc (k : string) (kv : list (string * pyval)) : option pyval :=
  match kv with
  | [] => None
  | (k', v) :: rest => if String.eqb k k' then Some v else assoc k rest
  end.

Definition dict_get (kv : list (string * pyval)) (k : string) : pyval :=
  match assoc k kv with Some v => v | None => PNone end.

Definition dict_get_default (kv : list (string * pyval)) (k : string)
    (default : pyval) : pyval :=
  match assoc k kv with Some v => v | None => default end.

(** *** Truth and [or] on [Optional[str]] *)

Definition truthy_opt (o : option string) : bool :=
  match o with
  | Some s => negb (String.eqb s "")
  | None => false
  end.

Definition or_opt (a b : option string) : option string :=
  if truthy_opt a then a else b.

(** [a or "literal"]: the right operand is a [str], and so is the result. *)
Definition or_default (a : option string) (literal : string) : string :=
  match a with
  | Some s => if truthy_opt a then s else literal
  | None => literal
  end.

(** *** [str.rstrip(chars)] *)

Fixpoint mem_char (c : ascii) (chars : string) : bool :=
  match chars with
  | EmptyString => false
  | String c' rest => Ascii.eqb c c' || mem_char c rest
  end.

Fixpoint rstrip (chars s : string) : string :=
  match s with
  | EmptyString => EmptyString
  | String c rest =>
      let r := rstrip chars rest in
      if mem_char c chars && String.eqb r "" then EmptyString else String c r
  end.

(** The last character of a text, if it has one. *)
Fixpoint last_char (s : string) : option ascii :=
  match s with
  | EmptyString => None
  | String c EmptyString => Some c
  | String _ rest => last_char rest
  end.

(** *** [str.lower()] on the first 256 code points *)

Definition lower_char (c : ascii) : ascii :=
  let n := nat_of_ascii c in
  if ((65 <=? n)%nat && (n <=? 90)%nat)
     || ((192 <=? n)%nat && (n <=? 222)%nat && negb (n =? 215)%nat)
  then ascii_of_nat (n + 32)
  else c.

Fixpoint lower (s : string) : string :=
  match s with
  | EmptyString => EmptyString
  | String c rest => String (lower_char c) (lower rest)
  end.

(** *** [repr] and [str] *)

Definition hex_digit (n : nat) : ascii :=
  match String.get n "0123456789abcdef" with
  | Some c => c
  | None => "0"%char
  end.

Definition hex2 (n : nat) : string :=
  String (hex_digit (n / 16)%nat) (String (hex_digit (n mod 16)%nat) "").

(** [str.isprintable] on one character of the first 256 code points. *)
Definition printable (c : ascii) : bool :=
  let n := nat_of_ascii c in
  ((32 <=? n)%nat && (n <? 127)%nat)
  || ((161 <=? n)%nat && negb (n =? 173)%nat).

Definition backslash : ascii := ascii_of_nat 92.
Definition squote : ascii := ascii_of_nat 39.
Definition dquote : ascii := ascii_of_nat 34.

Definition repr_char (quote c : ascii) : string :=
  if Ascii.eqb c quote || Ascii.eqb c backslash then String backslash (String c "")
  else if Ascii.eqb c (ascii_of_nat 9) then String backslash "t"
  else if Ascii.eqb c (ascii_of_nat 10) then String backslash "n"
  else if Ascii.eqb c (ascii_of_nat 13) then String backslash "r"
  else if printable c then String c ""
  else String backslash (String "x" (hex2 (nat_of_ascii c))).

Fixpoint repr_chars (quote : ascii) (s : string) : string :=
  match s with
  | EmptyString => EmptyString
  | String c rest => repr_char quote c +:+ repr_chars quote rest
  end.

(** [repr] of a [str]: single quotes, unless the text has a single quote and
    no double quote. *)
Definition repr_str (s : string) : string :=
  let quote :=
    if mem_char squote s && negb (mem_char dquote s) then dquote else squote in
  String quote (repr_chars quote s +:+ String quote "").

Fixpoint join (sep : string) (l : list string) : string :=
  match l with
  | [] => ""
  | [x] => x
  | x :: rest => x +:+ sep +:+ join sep rest
  end.

Definition repr_int (z : Z) : string :=
  pretty z.

Fixpoint repr (v : pyval) : string :=
  match v with
  | PNone => "None"
  | PBool true => "True"
  | PBool false => "False"
  | PInt z => repr_int z
  | PFloat _ r => r
  | PDatetime _ r => r
  | PStr s => repr_str s
  | PList l => "[" +:+ join ", " (List.map repr l) +:+ "]"
  | PDict kv =>
      "{" +:+ join ", "
                (List.map (fun p => let '(k, x) := p in
                                    repr_str k +:+ ": " +:+ repr x) kv)
          +:+ "}"
  end.

(** [str(v)]: the text itself for a [str], the [str] text of a date or time,
    [repr] for everything else. *)
Definition str (v : pyval) : string :=
  match v with
  | PStr s => s
  | PDatetime s _ => s
  | _ => repr v
  end.

End Py.

(** ** Exceptions and results *)

Module Exn.
Import Py.

(** The [OSError] subclasses a file operation of these programs can meet. *)
Inductive os_error : Type :=
  | FileNotFoundError
  | FileExistsError
  | NotADirectoryError
  | IsADirectoryError
  | PermissionError
  | NoSpaceLeft.

(** The subclasses of [Exception] raised or caught in the programs.
    [AuthError] is a subclass of [APIError] whose payload is [None];
    [Exit] is [typer.Exit]. [RequestError] and [InvalidURL] are those of
    [httpx]: the second is not a subclass of the first. [MarkupError] is
    that of [rich]; its message, which no program reads, is left out. *)
Inductive exn : Type :=
  | OSError (e : os_error)
  | TOMLDecodeError (msg : string)
  | ValueError (msg : string)
  | AttributeError (msg : string)
  | RuntimeError (msg : string)
  | RequestError (msg : string)
  | InvalidURL (msg : string)
  | NetworkError (msg : string)
  | APIError (status_code : Z) (msg : string) (payload : pyval)
  | AuthError (status_code : Z) (msg : string)
  | ConfigWriteError (cause : exn)
  | MarkupError
  | Exit (code : Z).

Inductive result (A : Type) : Type :=
  | Ok (a : A)
  | Raise (e : exn).

Arguments Ok {A} a.
Arguments Raise {A} e.

#[export] Instance result_ret : MRet result := fun A a => Ok a.

#[export] Instance result_bind : MBind result := fun A B f m =>
  match m with
  | Ok a => f a
  | Raise e => Raise e
  end.


Definition is_AuthError (e : exn) : bool :=
  match e with AuthError _ _ => true | _ => false end.

Definition is_NetworkError (e : exn) : bool :=
  match e with NetworkError _ => true | _ => false end.

(** [type(exc) is APIError]: an [APIError] that is not of a subclass. *)
Definition is_plain_APIError (e : exn) : bool :=
  match e with APIError _ _ _ => true | _ => false end.

(** The text of an operating-system error; Python's [str] also shows the
    error number and the file name. *)
Definition strerror (e : os_error) : string :=
  match e with
  | FileNotFoundError => "No such file or directory"
  | FileExistsError => "File exists"
  | NotADirectoryError => "Not a directory"
  | IsADirectoryError => "Is a directory"
  | PermissionError => "Permission denied"
  | NoSpaceLeft => "No space left on device"
  end.

(** [str(exc)]: the message the exception was built with. *)
Fixpoint exn_str (e : exn) : string :=
  match e with
  | OSError o => strerror o
  | TOMLDecodeError m | ValueError m | AttributeError m | RuntimeError m
  | RequestError m | InvalidURL m | NetworkError m => m
  | APIError _ m _ | AuthError _ m => m
  | ConfigWriteError cause => exn_str cause
  | MarkupError => ""
  | Exit _ => ""
  end.

End Exn.

(** ** Files *)

Module Fs.
Import Py Exn.

(** A path is the list of its components below the root. *)
Abbreviation path := (list string).

Inductive node : Type :=
  | Dir
  | File (text : string).

(** The file system: the nodes that exist, and the paths on which the
    operating system refuses to create or write (missing permission, full
    disk) together with the error it reports. *)
Record fs : Type := {
  nodes : gmap (list string) node;
  refused : gmap (list string) os_error;
}.

(** What a reader learns from [path.exists()] followed by
    [tomllib.load(path.open("rb"))], once the existence test has returned:
    the file is not there, opening or loading it raised, or it loaded.
    [Path.exists()] raising by itself (Python 3.12 and earlier re-raise
    [PermissionError] when a directory on the way cannot be searched) is
    not one of these outcomes. *)
Inductive file_read : Type :=
  | NotExists
  | LoadRaised (e : exn)
  | Loaded (raw : pyval).

Definition parent (p : path) : path := removelast p.

(** [Path.mkdir(parents=True, exist_ok=True)]: walks the prefixes of the
    path, shortest first; [done] is the prefix already known to be a
    directory. *)
Fixpoint mkdir_from (s : fs) (done todo : path) : result fs :=
  match todo with
  | [] => Ok s
  | c :: rest =>
      let p := (done ++ [c])%list in
      match nodes s !! p with
      | Some Dir => mkdir_from s p rest
      | Some (File _) =>
          Raise (OSError match rest with
                         | [] => FileExistsError
                         | _ => NotADirectoryError
                         end)
      | None =>
          match refused s !! p with
          | Some e => Raise (OSError e)
          | None =>
              mkdir_from {| nodes := <[p := Dir]> (nodes s);
                            refused := refused s |} p rest
          end
      end
  end.

Definition mkdir_parents (s : fs) (p : path) : result fs :=
  mkdir_from s [] p.

(** The directory test of [open]: the root is a directory. *)
Definition is_dir (s : fs) (p : path) : bool :=
  match p with
  | [] => true
  | _ => match nodes s !! p with Some Dir => true | _ => false end
  end.

(** [Path.write_text(text)]: creates or truncates the file. *)
Definition write_text (s : fs) (p : path) (text : string) : result fs :=
  if negb (is_dir s (parent p)) then
    Raise (OSError match nodes s !! parent p with
                   | Some (File _) => NotADirectoryError
                   | _ => FileNotFoundError
                   end)
  else
    match nodes s !! p with
    | Some Dir => Raise (OSError IsADirectoryError)
    | _ =>
        match refused s !! p with
        | Some e => Raise (OSError e)
        | None => Ok {| nodes := <[p := File text]> (nodes s);
                        refused := refused s |}
        end
    end.

Section Reading.
(** [tomllib.loads] on the text of a file. *)
Variable toml_loads : string -> result pyval.

Definition read_file (s : fs) (p : path) : file_read :=
  match nodes s !! p with
  | None => NotExists
  | Some Dir => LoadRaised (OSError IsADirectoryError)
  | Some (File text) =>
      match toml_loads text with
      | Ok raw => Loaded raw
      | Raise e => LoadRaised e
      end
  end.
End Reading.

End Fs.

(** ** TOML, as [tomllib] reads it *)

Module Toml.
Import Py.

(** The characters that stand for themselves between the quotes of a TOML
    basic string, among those [str.isprintable] accepts: all but the quote
    and the backslash. *)
Definition literal_char (c : ascii) : bool :=
  printable c && negb (Ascii.eqb c dquote) && negb (Ascii.eqb c backslash).

Fixpoint literal (s : string) : bool :=
  match s with
  | EmptyString => true
  | String c rest => literal_char c && literal rest
  end.

End Toml.

(** ** A sample TOML reader *)

Module TomlSample.
Import Py Exn.

(** A reading of one-line documents [key = "value"], as TOML defines them
    for a bare key and a basic string without escapes; anything else is
    rejected. It stands for [tomllib.loads] in the examples. *)
Fixpoint read_value (s : string) : option string :=
  match s with
  | EmptyString => None
  | String c rest =>
      if Ascii.eqb c dquote then
        if String.eqb rest (String (ascii_of_nat 10) "") then Some "" else None
      else if Ascii.eqb c backslash || negb (printable c) then None
      else match read_value rest with
           | Some v => Some (String c v)
           | None => None
           end
  end.

Definition bare_key_char (c : ascii) : bool :=
  let n := nat_of_ascii c in
  ((48 <=? n)%nat && (n <=? 57)%nat) || ((65 <=? n)%nat && (n <=? 90)%nat)
  || ((97 <=? n)%nat && (n <=? 122)%nat) || (n =? 95)%nat || (n =? 45)%nat.

Fixpoint read_entry (key s : string) : option (string * string) :=
  match s with
  | EmptyString => None
  | String c rest =>
      if bare_key_char c then read_entry (key +:+ String c "") rest
      else if String.eqb (String.substring 0 4 s) (" = " +:+ String dquote "")
                && negb (String.eqb key "")
      then match read_value (String.substring 4 (String.length s) s) with
           | Some v => Some (key, v)
           | None => None
           end
      else None
  end.

Definition one_line_toml (text : string) : result pyval :=
  match read_entry "" text with
  | Some (k, v) => Ok (PDict [(k, PStr v)])
  | None => Raise (TOMLDecodeError "unsupported document")
  end.

End TomlSample.

(** ** [openrsvp_cli/config.py] *)

Module Config.
Import Py Exn Fs.

(** [CONFIG_PATH = Path.home() / ".openrsvp" / "config.toml"]. *)
Definition CONFIG_PATH (home : path) : path :=
  (home ++ [".openrsvp"; "config.toml"])%list.

(** [section.get(key)]: only a dictionary has the method. *)
Definition section_get (section : pyval) (key : string) : result pyval :=
  match section with
  | PDict kv => Ok (dict_get kv key)
  | _ => Raise (AttributeError "object has no attribute 'get'")
  end.

(** [str(v) if v is not None else None]. *)
Definition str_or_none (v : pyval) : option string :=
  match v with
  | PNone => None
  | _ => Some (str v)
  end.

(** [d.get(key)] on a [Dict[str, Optional[str]]]. *)
Definition get (d : gmap string (option string)) (key : string) : option string :=
  match d !! key with
  | Some v => v
  | None => None
  end.

Definition _read_config_file (f : file_read) : result (gmap string (option string)) :=
  match f with
  | NotExists => Ok ∅
  | LoadRaised _ => Ok ∅
  | Loaded raw =>
      let config_section :=
        match raw with
        | PDict kv => dict_get_default kv "openrsvp" raw
        | _ => PDict []
        end in
      base_url ← section_get config_section "base_url";
      token ← section_get config_section "token";
      default_channel ← section_get config_section "default_channel";
      Ok (<["base_url" := str_or_none base_url]>
          (<["token" := str_or_none token]>
           (<["default_channel" := str_or_none default_channel]> ∅)))
  end.

Record Settings : Type := {
  base_url : string;
  token : option string;
  default_channel : option string;
  output_json : bool;
  quiet : bool;
}.

(** [environ] is [os.environ]; [f] is the state of the file at
    [CONFIG_PATH]. *)
Definition load_settings (environ : gmap string string) (f : file_read)
    (cli_base_url cli_token cli_default_channel : option string)
    (output_json quiet : bool) : result Settings :=
  file_config ← _read_config_file f;
  let env_config : gmap string (option string) :=
    <["base_url" := environ !! "OPENRSVP_BASE_URL"]>
    (<["token" := environ !! "OPENRSVP_TOKEN"]>
     (<["default_channel" := environ !! "OPENRSVP_DEFAULT_CHANNEL"]> ∅)) in
  let base_url :=
    or_default (or_opt (or_opt cli_base_url (get env_config "base_url"))
                       (get file_config "base_url"))
               "http://localhost:8000" in
  let token :=
    or_opt (or_opt cli_token (get env_config "token"))
           (get file_config "token") in
  let default_channel :=
    or_opt (or_opt cli_default_channel (get env_config "default_channel"))
           (get file_config "default_channel") in
  let base_url := rstrip "/" base_url in
  Ok {| base_url := base_url;
        token := token;
        default_channel := default_channel;
        output_json := output_json;
        quiet := quiet |}.

(** *** The specification's reading of the merge *)

(** The first source that is not absent, in the order given. *)
Fixpoint first_present (sources : list (option string)) : option string :=
  match sources with
  | [] => None
  | Some v :: _ => Some v
  | None :: rest => first_present rest
  end.

(** The first source that is neither absent nor empty. *)
Fixpoint first_nonempty (sources : list (option string)) : option string :=
  match sources with
  | [] => None
  | Some v :: rest => if String.eqb v "" then first_nonempty rest else Some v
  | None :: rest => first_nonempty rest
  end.

End Config.

(** ** The network, as [httpx] shows it to the programs *)

Module Http.
Import Py Exn.

(** A request as the programs ask [httpx] for it: the base URL of the
    client, and the method, path, query parameters and JSON body of the
    call. [headers] are the headers the programs set, on the client or on
    the call; those [httpx] adds by itself ([Host], [User-Agent], [Accept],
    [Content-Type] for a JSON body, ...) are not listed. *)
Record Request : Type := {
  method : string;
  req_base_url : string;
  req_path : string;
  headers : gmap string string;
  params : option pyval;
  json : option pyval;
}.

(** A response, by what the programs read of it: the status, the body text,
    and the value of [response.json()], [None] when that call raises
    [ValueError]. *)
Record Response : Type := {
  status_code : Z;
  text : string;
  json_value : option pyval;
}.

(** [response.is_success] and [response.is_error]. *)
Definition is_success (r : Response) : bool :=
  (200 <=? status_code r)%Z && (status_code r <=? 299)%Z.

Definition is_error (r : Response) : bool :=
  (400 <=? status_code r)%Z && (status_code r <=? 599)%Z.

(** What [httpx] does with a request: it raises an [httpx.RequestError]
    with the text [exc] (no response obtained); it returns a response; or it
    rejects the request before anything goes out, raising
    [httpx.InvalidURL] with the text [msg], which is not an
    [httpx.RequestError] (a path with a control character, a base URL it
    cannot parse: the latter is raised when the client is created). *)
Inductive outcome : Type :=
  | Failed (exc : string)
  | Responded (response : Response)
  | Rejected (msg : string).

Definition rejected (o : outcome) : bool :=
  match o with Rejected _ => true | _ => false end.

(** The network: what [httpx] and the remote side do with each request, and
    the requests the programs have asked [httpx] for so far, oldest first,
    the rejected ones included. *)
Record network : Type := {
  respond : Request -> outcome;
  sent : list Request;
}.

Definition send (n : network) (r : Request) : outcome * network :=
  (respond n r, {| respond := respond n; sent := (sent n ++ [r])%list |}).

(** The requests [httpx] took up and tried to send: those it did not
    reject. Trying ends with a response or with an [httpx.RequestError]. *)
Definition issued (n : network) : list Request :=
  List.filter (fun r => negb (rejected (respond n r))) (sent n).

End Http.

(** ** [openrsvp_cli/client.py] *)

Module Client.
Import Py Exn Http.

Record AsyncClient : Type := {
  client_base_url : string;
  client_headers : gmap string string;
  timeout : Z;
  connect : Z;
}.

Record APIClient : Type := {
  settings : Config.Settings;
  _client : option AsyncClient;
}.

(** [APIClient(settings)]. *)
Definition new (s : Config.Settings) : APIClient :=
  {| settings := s; _client := None |}.

Definition __aenter__ (self : APIClient) : APIClient :=
  let headers : gmap string string :=
    if truthy_opt (Config.token (settings self)) then
      match Config.token (settings self) with
      | Some t => <["Authorization" := "Bearer " +:+ t]> ∅
      | None => ∅
      end
    else ∅ in
  {| settings := settings self;
     _client := Some {| client_base_url := Config.base_url (settings self);
                        client_headers := headers;
                        timeout := 10;
                        connect := 10 |} |}.

(** The keyword arguments [_request] forwards to [client.request]. *)
Record kwargs : Type := {
  kw_params : option pyval;
  kw_json : option pyval;
}.

Definition AUTH_MESSAGE : string :=
  "Authentication failed. Provide a valid token via --token, OPENRSVP_TOKEN, or ~/.config/openrsvp/config.toml.".

(** [client.request(method, path, **kwargs)] as [httpx] builds it: the base
    URL and the headers are those the client was created with. *)
Definition build_request (client : AsyncClient) (method path : string)
    (kw : kwargs) : Request :=
  {| Http.method := method;
     req_base_url := client_base_url client;
     req_path := path;
     headers := client_headers client;
     params := kw_params kw;
     json := kw_json kw |}.

(** Only an [httpx.RequestError] is caught: the [httpx.InvalidURL] of a
    rejected request leaves the function as it is. *)
Definition _request (self : APIClient) (method path : string) (kw : kwargs)
    (n : network) : result pyval * network :=
  match _client self with
  | None =>
      (Raise (RuntimeError "APIClient must be used within an async context manager"), n)
  | Some client =>
      match send n (build_request client method path kw) with
      | (Failed exc, n') =>
          (Raise (NetworkError ("Network error contacting "
                                +:+ Config.base_url (settings self)
                                +:+ ": " +:+ exc)), n')
      | (Responded response, n') =>
          if (status_code response =? 401)%Z || (status_code response =? 403)%Z
          then (Raise (AuthError (status_code response) AUTH_MESSAGE), n')
          else
            let payload :=
              match json_value response with
              | Some v => v
              | None => PStr (text response)
              end in
            if is_error response then
              let message :=
                if is_str payload then payload
                else por payload (PStr (text response)) in
              (Raise (APIError (status_code response) (str message) payload), n')
            else (Ok payload, n')
      | (Rejected msg, n') => (Raise (InvalidURL msg), n')
      end
  end.

(** [params or None] for the keyword dictionary of [get]. *)
Definition params_or_none (params : list (string * pyval)) : option pyval :=
  if truthy (PDict params) then Some (PDict params) else None.

Definition get (self : APIClient) (path : string)
    (params : list (string * pyval)) :=
  _request self "GET" path
    {| kw_params := params_or_none params; kw_json := None |}.

Definition post (self : APIClient) (path : string) (json : option pyval) :=
  _request self "POST" path {| kw_params := None; kw_json := json |}.

Definition delete (self : APIClient) (path : string) :=
  _request self "DELETE" path {| kw_params := None; kw_json := None |}.

Definition patch (self : APIClient) (path : string) (json : option pyval) :=
  _request self "PATCH" path {| kw_params := None; kw_json := json |}.

(** A session: the calls made on one client, in order. *)
Inductive call : Type :=
  | Get (path : string) (params : list (string * pyval))
  | Post (path : string) (json : option pyval)
  | Delete (path : string)
  | Patch (path : string) (json : option pyval).

Definition perform (self : APIClient) (c : call) (n : network)
    : result pyval * network :=
  match c with
  | Get p ps => get self p ps n
  | Post p j => post self p j n
  | Delete p => delete self p n
  | Patch p j => patch self p j n
  end.

Fixpoint session (self : APIClient) (calls : list call) (n : network)
    : list (result pyval) * network :=
  match calls with
  | [] => ([], n)
  | c :: rest =>
      let '(r, n') := perform self c n in
      let '(rs, n'') := session self rest n' in
      (r :: rs, n'')
  end.

End Client.

(** ** [openrsvp_cli/config_cli.py] *)

Module ConfigCli.
Import Py Exn Fs.

(** The text of a configuration file with the single entry [base_url]. *)
Definition config_text (base_url : string) : string :=
  "base_url = " +:+ String dquote base_url
  +:+ String dquote (String (ascii_of_nat 10) "").

(** [str(path)]. *)
Definition path_str (p : path) : string :=
  "/" +:+ join "/" p.



End ConfigCli.

(** ** [invite/cli.py] *)

Module Invite.
Import Py Exn Fs Http.

Definition DEFAULT_BASE_URL : string := "https://openrsvp.kaotic.cc".

(** [CONFIG_PATH = Path.home() / ".config" / "invite" / "config.toml"]. *)
Definition CONFIG_PATH (home : path) : path :=
  (home ++ [".config"; "invite"; "config.toml"])%list.

(** What the command printed: [typer.secho(text, fg=...)], and
    [typer.echo(json.dumps(data, indent=2))]. *)
Inductive output : Type :=
  | Secho (text fg : string)
  | EchoJson (data : pyval).

(** [f] is the state of the file at [CONFIG_PATH]. The whole body after the
    existence test is inside [try]: a document without [get] reads as
    [None]. *)
Definition _load_config_base_url (f : file_read) : option string :=
  match f with
  | NotExists => None
  | LoadRaised _ => None
  | Loaded data =>
      match data with
      | PDict kv =>
          let base_url := dict_get kv "base_url" in
          if truthy base_url then Some (str base_url) else None
      | _ => None
      end
  end.

Definition _normalize_base_url (base_url : string) : string :=
  rstrip "/" base_url.

(** The command [configure]: an error of the file system is not caught. *)
Definition configure (home : path) (s : fs) (base_url : string)
    : result unit * fs * list output :=
  let normalized := _normalize_base_url base_url in
  match mkdir_parents s (parent (CONFIG_PATH home)) with
  | Raise e => (Raise e, s, [])
  | Ok s1 =>
      match write_text s1 (CONFIG_PATH home)
              ("base_url = " +:+ String dquote normalized
               +:+ String dquote (String (ascii_of_nat 10) "")) with
      | Raise e => (Raise e, s1, [])
      | Ok s2 =>
          (Ok tt, s2,
           [Secho ("Saved config to " +:+ ConfigCli.path_str (CONFIG_PATH home))
                  "green"])
      end
  end.

(** The callback [main]: the context object it builds. *)
Definition main (base_url admin_token : option string) (f : file_read)
    : string * option string :=
  let config_base_url := _load_config_base_url f in
  let effective_base :=
    or_default (or_opt base_url config_base_url) DEFAULT_BASE_URL in
  (_normalize_base_url effective_base, admin_token).

(** [base_url] is [ctx.obj["base_url"]]. Nothing [httpx] raises is caught:
    neither an [httpx.RequestError] nor the [httpx.InvalidURL] of a rejected
    request. The function returns [None] or the parsed body. *)
Definition _request (base_url method path : string)
    (headers : option (gmap string string)) (json_payload : option pyval)
    (echo : bool) (n : network) : result pyval * network * list output :=
  let request :=
    {| Http.method := method;
       req_base_url := base_url;
       req_path := path;
       Http.headers := match headers with Some h => h | None => ∅ end;
       params := None;
       json := json_payload |} in
  match send n request with
  | (Failed exc, n') => (Raise (RequestError exc), n', [])
  | (Rejected msg, n') => (Raise (InvalidURL msg), n', [])
  | (Responded response, n') =>
      if (status_code response =? 204)%Z then
        (Ok PNone, n', [Secho "Success (204 No Content)" "green"])
      else
        let data :=
          match json_value response with
          | Some v => v
          | None => PDict [("detail", PStr (text response))]
          end in
        if is_success response then
          (Ok data, n', if echo then [EchoJson data] else [])
        else
          (Raise (Exit 1), n',
           [Secho ("Request failed (" +:+ pretty (status_code response) +:+ ")")
                  "red";
            EchoJson (if is_dict data then data else PDict [("detail", data)])])
  end.

End Invite.

(** ** Sample inputs *)

Module Samples.
Import Py Exn Fs Http.

(** The settings resolved when only a token is configured. *)
Definition settings_with_token (t : option string) : Config.Settings :=
  {| Config.base_url := "http://localhost:8000";
     Config.token := t;
     Config.default_channel := None;
     Config.output_json := false;
     Config.quiet := false |}.

(** A remote side that gives the same answer to every request. *)
Definition always (o : outcome) : network :=
  {| respond := fun _ => o; sent := [] |}.

(** The body [{"detail": "not found"}]. *)
Definition not_found_text : string :=
  "{" +:+ String dquote "detail" +:+ String dquote ": "
  +:+ String dquote "not found" +:+ String dquote "}".

Definition not_found : Response :=
  {| status_code := 404;
     text := not_found_text;
     json_value := Some (PDict [("detail", PStr "not found")]) |}.

Definition forbidden_html : Response :=
  {| status_code := 403; text := "<html>Forbidden</html>"; json_value := None |}.

Definition no_content : Response :=
  {| status_code := 204; text := ""; json_value := None |}.

Definition home : path := ["home"; "user"].

Definition empty_disk : fs := {| nodes := ∅; refused := ∅ |}.


End Samples.

(** ** The console, as [rich] shows it to the programs *)

Module Rich.
Import Py.

(** [console.print(text)] reads [text] as console markup and raises
    [MarkupError] when a closing tag such as [[/b]] matches no opening tag.
    Two kinds of text are always rendered: a text without ["["], which
    [rich.markup.render] returns as it is, and a text that opens with one
    colour tag and ends with its closing tag, with no ["["] in between. For
    any other text the console tells: [renders text] is whether [rich]
    renders it. *)
Class Console : Type := { renders : string -> bool }.

Definition plain (text : string) : bool := negb (mem_char "[" text).

(** [text] without [prefix] in front, when it starts with it. *)
Fixpoint strip_prefix (prefix text : string) : option string :=
  match prefix, text with
  | EmptyString, _ => Some text
  | String a prefix', String b text' =>
      if Ascii.eqb a b then strip_prefix prefix' text' else None
  | String _ _, EmptyString => None
  end.

(** [text] is a text without ["["] followed by [close]. *)
Fixpoint closes (close text : string) : bool :=
  if String.eqb text close then true
  else
    match text with
    | EmptyString => false
    | String c rest => negb (Ascii.eqb c "[") && closes close rest
    end.

(** [text] is ["[colour]...[/colour]"] with no ["["] in between. *)
Definition tagged (colour text : string) : bool :=
  match strip_prefix ("[" +:+ colour +:+ "]") text with
  | Some rest => closes ("[/" +:+ colour +:+ "]") rest
  | None => false
  end.

(** Whether [console.print(text)] renders [text]. *)
Definition markup_ok {console : Console} (text : string) : bool :=
  plain text || tagged "red" text || tagged "green" text
  || tagged "yellow" text || renders text.

End Rich.

(** ** Command handlers of [openrsvp_cli]: [events.py], [channels.py] *)

Module Commands.
Import Py Exn Http Client Rich.

(** A [rich] table, by its title, its column headers and its rows. *)
Record table : Type := {
  title : string;
  columns : list string;
  rows : list (list string);
}.

(** What a command printed: [console.print(markup)],
    [console.print_json(data=...)] and [console.print(table)]. *)
Inductive printed : Type :=
  | Print (markup : string)
  | PrintJson (data : pyval)
  | PrintTable (t : table).

(** [ctx.obj]: the settings stored by the callback [main], or anything
    else. *)
Inductive context : Type :=
  | WithSettings (s : Config.Settings)
  | Uninitialized.

(** What ends a command otherwise than by returning: an exception of the
    programs, or [typer.BadParameter]. *)
Inductive raised : Type :=
  | Exc (e : exn)
  | BadParameter (msg : string).

Inductive outcome (A : Type) : Type :=
  | Returned (a : A)
  | Raised (r : raised).

Arguments Returned {A} a.
Arguments Raised {A} r.

Definition _get_settings (ctx : context) : outcome Config.Settings :=
  match ctx with
  | WithSettings settings => Returned settings
  | Uninitialized =>
      Raised (BadParameter
                "Configuration was not initialized. Run through main CLI entry.")
  end.

(** [value.get(key)] and [value.get(key, default)] on a value that may not
    be a dictionary. *)
Definition value_get (v : pyval) (key : string) : result pyval :=
  match v with
  | PDict kv => Ok (dict_get kv key)
  | _ => Raise (AttributeError "object has no attribute 'get'")
  end.

Definition value_get_default (v : pyval) (key : string) (default : pyval)
    : result pyval :=
  match v with
  | PDict kv => Ok (dict_get_default kv key default)
  | _ => Raise (AttributeError "object has no attribute 'get'")
  end.

(** The channel cell: a dictionary is shown by its slug, name or id. *)
Definition channel_cell (channel_value : pyval) : pyval :=
  match channel_value with
  | PDict ch => por (por (dict_get ch "slug") (dict_get ch "name"))
                    (dict_get ch "id")
  | _ => channel_value
  end.

(** One turn of the loop of [_render_events_table]. *)
Definition events_row (event : pyval) : result (list string) :=
  channel_value ← value_get event "channel";
  let channel_value := channel_cell channel_value in
  id ← value_get_default event "id" (PStr "");
  title ← value_get_default event "title" (PStr "");
  start_time ← value_get event "start_time";
  start ← value_get event "start";
  end_time ← value_get event "end_time";
  end_ ← value_get event "end";
  is_private ← value_get event "is_private";
  admin_approval_required ← value_get event "admin_approval_required";
  requires_approval ← value_get event "requires_approval";
  Ok [str id;
      str title;
      str (por (por start_time start) (PStr ""));
      str (por (por end_time end_) (PStr ""));
      str (por channel_value (PStr ""));
      if truthy is_private then "yes" else "no";
      if truthy (por admin_approval_required requires_approval)
      then "yes" else "no"].

Fixpoint events_rows (events : list pyval) : result (list (list string)) :=
  match events with
  | [] => Ok []
  | event :: rest =>
      row ← events_row event;
      more ← events_rows rest;
      Ok (row :: more)
  end.

Definition _render_events_table (events : list pyval) : result table :=
  rows ← events_rows events;
  Ok {| title := "Events";
        columns := ["ID"; "Title"; "Start"; "End"; "Channel"; "Private";
                    "Approval"];
        rows := rows |}.

Definition _render_event_detail (event : pyval) : result table :=
  channel_value ← value_get event "channel";
  let channel_value := channel_cell channel_value in
  id ← value_get_default event "id" (PStr "");
  title ← value_get_default event "title" (PStr "");
  description ← value_get_default event "description" (PStr "");
  start_time ← value_get event "start_time";
  start ← value_get event "start";
  end_time ← value_get event "end_time";
  end_ ← value_get event "end";
  location ← value_get_default event "location" (PStr "");
  is_private ← value_get_default event "is_private" (PStr "");
  admin_approval_required ← value_get event "admin_approval_required";
  requires_approval ← value_get event "requires_approval";
  links ← value_get event "links";
  public_link ← value_get_default (por links (PDict [])) "public" (PStr "");
  Ok {| title := "Event";
        columns := [];
        rows :=
          [["id"; str id];
           ["title"; str title];
           ["description"; str description];
           ["start_time"; str (por (por start_time start) (PStr ""))];
           ["end_time"; str (por (por end_time end_) (PStr ""))];
           ["location"; str location];
           ["channel"; str (por channel_value (PStr ""))];
           ["is_private"; str is_private];
           ["admin_approval_required";
            str (por (por admin_approval_required requires_approval)
                     (PStr ""))];
           ["public_link"; str public_link]] |}.

(** The first list found under one of the keys, in the order given. *)
Fixpoint first_list (kv : list (string * pyval)) (keys : list string)
    : list pyval :=
  match keys with
  | [] => []
  | key :: rest =>
      match dict_get kv key with
      | PList value => value
      | _ => first_list kv rest
      end
  end.

Definition _extract_events_payload (data : pyval) : list pyval :=
  match data with
  | PList items => items
  | PDict kv => first_list kv ["events"; "items"; "results"; "data"]
  | _ => []
  end.

(** [[event for event in events if not event.get("is_private")]]. *)
Fixpoint public_only_events (events : list pyval) : result (list pyval) :=
  match events with
  | [] => Ok []
  | event :: rest =>
      is_private ← value_get event "is_private";
      more ← public_only_events rest;
      Ok (if truthy is_private then more else event :: more)
  end.

(** [[str(item.get(key, "")) for key in keys]]: the cells of one row. *)
Fixpoint cells (item : pyval) (keys : list string) : result (list string) :=
  match keys with
  | [] => Ok []
  | key :: rest =>
      value ← value_get_default item key (PStr "");
      more ← cells item rest;
      Ok (str value :: more)
  end.

(** One row per item, each with the cells under [keys]. *)
Fixpoint table_rows (items : list pyval) (keys : list string)
    : result (list (list string)) :=
  match items with
  | [] => Ok []
  | item :: rest =>
      row ← cells item keys;
      more ← table_rows rest keys;
      Ok (row :: more)
  end.

(** The loop [for key in keys: table.add_row(key, str(item.get(key, "")))]. *)
Fixpoint detail_rows (item : pyval) (keys : list string)
    : result (list (list string)) :=
  match keys with
  | [] => Ok []
  | key :: rest =>
      value ← value_get_default item key (PStr "");
      more ← detail_rows item rest;
      Ok ([key; str value] :: more)
  end.

Definition _render_channels_table (channels : list pyval) : result table :=
  rows ← table_rows channels ["name"; "visibility"; "invite_code"];
  Ok {| title := "Channels";
        columns := ["Name"; "Visibility"; "Invite Code"];
        rows := rows |}.

Definition _render_rsvps_table (rsvps : list pyval) : result table :=
  rows ← table_rows rsvps ["id"; "name"; "email"; "status"; "guests"];
  Ok {| title := "RSVPs";
        columns := ["ID"; "Name"; "Email"; "Status"; "Guests"];
        rows := rows |}.

Definition _render_rsvp_detail (rsvp : pyval) : result table :=
  rows ← detail_rows rsvp
           ["id"; "event_id"; "name"; "email"; "status"; "guests"; "note"];
  Ok {| title := "RSVP"; columns := []; rows := rows |}.

Definition _render_channel_detail (channel : pyval) : result table :=
  rows ← detail_rows channel
           ["name"; "visibility"; "invite_code"; "description"];
  Ok {| title := "Channel"; columns := []; rows := rows |}.

(** [data if isinstance(data, list) else [data]]. *)
Definition as_list (data : pyval) : list pyval :=
  match data with
  | PList items => items
  | _ => [data]
  end.

(** The commands of the application, as it dispatches them; [visibility]
    is the value of [--visibility] as given on the command line. *)
Inductive command : Type :=
  | EventsList (channel : option string) (public_only : bool)
  | EventsCreate (title description start end_ channel : string)
      (is_private requires_approval : bool)
  | EventsShow (event_id : string)
  | EventsDelete (event_id : string)
  | RsvpsCreate (event_id name email : string) (guests : Z)
      (note : option string)
  | RsvpsList (event_id : string)
  | RsvpsApprove (rsvp_id : string)
  | RsvpsReject (rsvp_id reason : string)
  | RsvpsDelete (rsvp_id : string)
  | ChannelsList
  | ChannelsCreate (name visibility : string) (invite_code : option string)
  | ChannelsShow (channel_name : string).

(** The callback of [--visibility]: [v.lower() if v else v]. *)
Definition visibility_callback (v : string) : string :=
  if negb (String.eqb v "") then lower v else v.

(** The visibility test of [channels create], on the value the callback
    returns. *)
Definition accepted (c : command) : bool :=
  match c with
  | ChannelsCreate _ visibility _ =>
      String.eqb (visibility_callback visibility) "public"
      || String.eqb (visibility_callback visibility) "private"
  | _ => true
  end.

Section Printing.
Context {console : Console}.

(** Whether [console.print(table)] renders the table: its title, its
    headers and its cells are read as console markup. *)
Definition table_ok (t : table) : bool :=
  forallb markup_ok (title t :: columns t ++ concat (rows t))%list.

(** Whether [console.print] or [console.print_json] renders the item.
    [print_json] does not read its data as markup. *)
Definition shown (item : printed) : bool :=
  match item with
  | Print markup => markup_ok markup
  | PrintJson _ => true
  | PrintTable t => table_ok t
  end.

(** Printing the items in turn: the first that is not rendered raises
    [MarkupError]; the second component is what was printed. *)
Fixpoint console_print (items : list printed) : result unit * list printed :=
  match items with
  | [] => (Ok tt, [])
  | item :: rest =>
      if shown item then
        let '(r, out) := console_print rest in (r, item :: out)
      else (Raise MarkupError, [])
  end.

(** The end of a command that prints the items and returns. *)
Definition print_and_return (items : list printed)
    : outcome unit * list printed :=
  match console_print items with
  | (Ok _, out) => (Returned tt, out)
  | (Raise e, out) => (Raised (Exc e), out)
  end.

(** The same function is defined in [events.py], [rsvps.py] and
    [channels.py]. It never returns: it raises [typer.Exit] after printing,
    unless the printing itself raises. *)
Definition _handle_error (exc : exn) (settings : Config.Settings)
    : result unit * list printed :=
  let items :=
    match exc with
    | AuthError _ _ => [Print ("[red]" +:+ exn_str exc +:+ "[/red]")]
    | NetworkError _ => [Print ("[red]" +:+ exn_str exc +:+ "[/red]")]
    | APIError status_code _ payload =>
        Print ("[red]API error (" +:+ pretty status_code +:+ "): "
               +:+ exn_str exc +:+ "[/red]")
        :: (if Config.output_json settings && truthy payload
            then [PrintJson payload] else [])
    | _ => [Print ("[red]Unexpected error: " +:+ exn_str exc +:+ "[/red]")]
    end in
  match console_print items with
  | (Ok _, out) => (Raise (Exit 1), out)
  | (Raise e, out) => (Raise e, out)
  end.

(** The part of a command after the [try] block: [after] is run on the
    payload when the request returned, [_handle_error] when it raised. *)
Definition finish (settings : Config.Settings)
    (call : result pyval * network)
    (after : pyval -> outcome unit * list printed)
    : outcome unit * network * list printed :=
  match call with
  | (Ok data, n') => let '(o, out) := after data in (o, n', out)
  | (Raise exc, n') =>
      match _handle_error exc settings with
      | (Raise e, out) => (Raised (Exc e), n', out)
      | (Ok _, out) => (Returned tt, n', out)
      end
  end.

(** The command [events list]: one [GET], on the channel when one is
    targeted, else on the admin listing when a token is set, else on the
    public listing. *)
Definition list_events (ctx : context) (channel : option string)
    (public_only : bool) (n : network)
    : outcome unit * network * list printed :=
  match _get_settings ctx with
  | Raised r => (Raised r, n, [])
  | Returned settings =>
      let target_channel :=
        or_opt channel (Config.default_channel settings) in
      let token_path :=
        match Config.token settings with
        | Some t =>
            if truthy_opt (Config.token settings)
            then "/admin/" +:+ t +:+ "/events"
            else "/api/v1/events"
        | None => "/api/v1/events"
        end in
      let path :=
        match target_channel with
        | Some c =>
            if truthy_opt target_channel then "/api/v1/channels/" +:+ c
            else token_path
        | None => token_path
        end in
      let client := __aenter__ (new settings) in
      let call := get client path [] n in
      finish settings call (fun data =>
        if Config.output_json settings then print_and_return [PrintJson data]
        else
          let events := _extract_events_payload data in
          match (if public_only then public_only_events events
                 else Ok events) with
          | Raise e => (Raised (Exc e), [])
          | Ok events =>
              match events with
              | [] => print_and_return [Print "[yellow]No events found.[/yellow]"]
              | _ =>
                  match _render_events_table events with
                  | Raise e => (Raised (Exc e), [])
                  | Ok t => print_and_return [PrintTable t]
                  end
              end
          end)
  end.

(** The command [events show]. *)
Definition show_event (ctx : context) (event_id : string) (n : network)
    : outcome unit * network * list printed :=
  match _get_settings ctx with
  | Raised r => (Raised r, n, [])
  | Returned settings =>
      let client := __aenter__ (new settings) in
      finish settings (get client ("/api/v1/events/" +:+ event_id) [] n)
        (fun data =>
           let event :=
             match data with
             | PDict kv =>
                 match assoc "event" kv with
                 | Some v => v
                 | None => data
                 end
             | _ => data
             end in
           if Config.output_json settings
           then print_and_return [PrintJson event]
           else
             match _render_event_detail (por event (PDict [])) with
             | Raise e => (Raised (Exc e), [])
             | Ok t => print_and_return [PrintTable t]
             end)
  end.

(** The command [events delete]. *)
Definition delete_event (ctx : context) (event_id : string) (n : network)
    : outcome unit * network * list printed :=
  match _get_settings ctx with
  | Raised r => (Raised r, n, [])
  | Returned settings =>
      let client := __aenter__ (new settings) in
      finish settings (delete client ("/api/v1/events/" +:+ event_id) n)
        (fun data =>
           if Config.output_json settings
           then print_and_return [PrintJson data]
           else if negb (Config.quiet settings)
           then print_and_return
                  [Print ("[green]Deleted event " +:+ event_id +:+ ".[/green]")]
           else (Returned tt, []))
  end.

(** The end of a listing command: the payload in JSON mode, else the
    table of its items. *)
Definition print_listing (settings : Config.Settings)
    (render : list pyval -> result table) (data : pyval)
    : outcome unit * list printed :=
  if Config.output_json settings then print_and_return [PrintJson data]
  else
    match render (as_list data) with
    | Raise e => (Raised (Exc e), [])
    | Ok t => print_and_return [PrintTable t]
    end.

(** The command [channels create]; [visibility] is the option as given on
    the command line, which the function receives through the callback. *)
Definition create_channel (ctx : context) (name visibility : string)
    (invite_code : option string) (n : network)
    : outcome unit * network * list printed :=
  let visibility := visibility_callback visibility in
  match _get_settings ctx with
  | Raised r => (Raised r, n, [])
  | Returned settings =>
      if negb (String.eqb visibility "public"
               || String.eqb visibility "private")
      then (Raised (BadParameter "--visibility must be 'public' or 'private'."),
            n, [])
      else
        let payload :=
          PDict [("name", PStr name);
                 ("visibility", PStr visibility);
                 ("invite_code",
                  match invite_code with Some c => PStr c | None => PNone end)]
        in
        let client := __aenter__ (new settings) in
        finish settings (post client "/api/v1/channels" (Some payload) n)
          (fun data =>
             if Config.output_json settings
             then print_and_return [PrintJson data]
             else
               match _render_channel_detail data with
               | Raise e => (Raised (Exc e), [])
               | Ok t =>
                   print_and_return
                     (PrintTable t
                      :: (if negb (Config.quiet settings)
                          then [Print "[green]Channel created.[/green]"]
                          else []))
               end)
  end.

(** The command [channels show]. *)
Definition show_channel (ctx : context) (channel_name : string) (n : network)
    : outcome unit * network * list printed :=
  match _get_settings ctx with
  | Raised r => (Raised r, n, [])
  | Returned settings =>
      let client := __aenter__ (new settings) in
      finish settings (get client ("/api/v1/channels/" +:+ channel_name) [] n)
        (fun data =>
           if Config.output_json settings
           then print_and_return [PrintJson data]
           else
             match _render_channel_detail data with
             | Raise e => (Raised (Exc e), [])
             | Ok t => print_and_return [PrintTable t]
             end)
  end.

(** The command [channels list]. *)
Definition list_channels (ctx : context) (n : network)
    : outcome unit * network * list printed :=
  match _get_settings ctx with
  | Raised r => (Raised r, n, [])
  | Returned settings =>
      let client := __aenter__ (new settings) in
      finish settings (get client "/api/v1/channels" [] n)
        (print_listing settings _render_channels_table)
  end.

(** The command [rsvps list]. *)
Definition list_rsvps (ctx : context) (event_id : string) (n : network)
    : outcome unit * network * list printed :=
  match _get_settings ctx with
  | Raised r => (Raised r, n, [])
  | Returned settings =>
      let client := __aenter__ (new settings) in
      finish settings
        (get client ("/api/v1/events/" +:+ event_id +:+ "/rsvps") [] n)
        (print_listing settings _render_rsvps_table)
  end.

(** The command [rsvps create]. *)
Definition create_rsvp (ctx : context) (event_id name email : string)
    (guests : Z) (note : option string) (n : network)
    : outcome unit * network * list printed :=
  match _get_settings ctx with
  | Raised r => (Raised r, n, [])
  | Returned settings =>
      let payload :=
        PDict [("event_id", PStr event_id);
               ("name", PStr name);
               ("email", PStr email);
               ("guests", PInt guests);
               ("note", match note with Some t => PStr t | None => PNone end)]
      in
      let client := __aenter__ (new settings) in
      finish settings (post client "/api/v1/rsvps" (Some payload) n)
        (fun data =>
           if Config.output_json settings
           then print_and_return [PrintJson data]
           else
             match _render_rsvp_detail data with
             | Raise e => (Raised (Exc e), [])
             | Ok t =>
                 print_and_return
                   (PrintTable t
                    :: (if negb (Config.quiet settings)
                        then [Print "[green]RSVP created.[/green]"]
                        else []))
             end)
  end.

(** The end of [rsvps approve], [rsvps reject] and [rsvps delete]: the
    payload in JSON mode, else a confirmation unless [--quiet]. *)
Definition print_done (settings : Config.Settings) (confirmation : string)
    (data : pyval) : outcome unit * list printed :=
  if Config.output_json settings then print_and_return [PrintJson data]
  else if negb (Config.quiet settings)
  then print_and_return [Print confirmation]
  else (Returned tt, []).

(** The command [rsvps approve]. *)
Definition approve_rsvp (ctx : context) (rsvp_id : string) (n : network)
    : outcome unit * network * list printed :=
  match _get_settings ctx with
  | Raised r => (Raised r, n, [])
  | Returned settings =>
      let client := __aenter__ (new settings) in
      finish settings
        (post client ("/api/v1/rsvps/" +:+ rsvp_id +:+ "/approve") None n)
        (print_done settings
           ("[green]RSVP " +:+ rsvp_id +:+ " approved.[/green]"))
  end.

(** The command [rsvps reject]. *)
Definition reject_rsvp (ctx : context) (rsvp_id reason : string) (n : network)
    : outcome unit * network * list printed :=
  match _get_settings ctx with
  | Raised r => (Raised r, n, [])
  | Returned settings =>
      let client := __aenter__ (new settings) in
      finish settings
        (post client ("/api/v1/rsvps/" +:+ rsvp_id +:+ "/reject")
           (Some (PDict [("reason", PStr reason)])) n)
        (print_done settings
           ("[green]RSVP " +:+ rsvp_id +:+ " rejected.[/green]"))
  end.

(** The command [rsvps delete]. *)
Definition delete_rsvp (ctx : context) (rsvp_id : string) (n : network)
    : outcome unit * network * list printed :=
  match _get_settings ctx with
  | Raised r => (Raised r, n, [])
  | Returned settings =>
      let client := __aenter__ (new settings) in
      finish settings (delete client ("/api/v1/rsvps/" +:+ rsvp_id) n)
        (print_done settings
           ("[green]RSVP " +:+ rsvp_id +:+ " deleted.[/green]"))
  end.

(** The command [events create]; [start] and [end_] are the values the
    option callbacks let through. *)
Definition create_event (ctx : context)
    (title description start end_ channel : string)
    (is_private requires_approval : bool) (n : network)
    : outcome unit * network * list printed :=
  match _get_settings ctx with
  | Raised r => (Raised r, n, [])
  | Returned settings =>
      let payload :=
        PDict [("title", PStr title);
               ("description", PStr description);
               ("start_time", PStr start);
               ("end_time", PStr end_);
               ("channel_name", PStr channel);
               ("is_private", PBool is_private);
               ("admin_approval_required", PBool requires_approval)] in
      let client := __aenter__ (new settings) in
      finish settings (post client "/api/v1/events" (Some payload) n)
        (fun data =>
           if Config.output_json settings
           then print_and_return [PrintJson data]
           else
             match _render_event_detail data with
             | Raise e => (Raised (Exc e), [])
             | Ok t =>
                 print_and_return
                   (PrintTable t
                    :: (if negb (Config.quiet settings)
                        then [Print "[green]Event created successfully.[/green]"]
                        else []))
             end)
  end.

Definition run (ctx : context) (c : command) (n : network)
    : outcome unit * network * list printed :=
  match c with
  | EventsList channel public_only => list_events ctx channel public_only n
  | EventsCreate title description start end_ channel is_private
      requires_approval =>
      create_event ctx title description start end_ channel is_private
        requires_approval n
  | EventsShow event_id => show_event ctx event_id n
  | EventsDelete event_id => delete_event ctx event_id n
  | RsvpsCreate event_id name email guests note =>
      create_rsvp ctx event_id name email guests note n
  | RsvpsList event_id => list_rsvps ctx event_id n
  | RsvpsApprove rsvp_id => approve_rsvp ctx rsvp_id n
  | RsvpsReject rsvp_id reason => reject_rsvp ctx rsvp_id reason n
  | RsvpsDelete rsvp_id => delete_rsvp ctx rsvp_id n
  | ChannelsList => list_channels ctx n
  | ChannelsCreate name visibility invite_code =>
      create_channel ctx name visibility invite_code n
  | ChannelsShow channel_name => show_channel ctx channel_name n
  end.

End Printing.

End Commands.

(** ** Commands of [invite/cli.py] *)

Module InviteCommands.
Import Py Exn Http Invite.

(** What a command printed: the output of [_request], and
    [typer.echo(text)]. *)
Inductive line : Type :=
  | Out (o : output)
  | Echo (text : string).

(** [ctx] is [ctx.obj], the pair built by [main]. *)
Definition _resolve_admin_token (ctx : string * option string)
    (admin_token : option string) : result string * list output :=
  let token := or_opt admin_token (snd ctx) in
  let refusal :=
    (Raise (Exit 1),
     [Secho "An admin token is required. Use --admin-token or set INVITE_ADMIN_TOKEN."
            "red"]) in
  match token with
  | Some t => if truthy_opt token then (Ok t, []) else refusal
  | None => refusal
  end.

(** The command [show-event]. *)
Definition show_event (ctx : string * option string) (event_id : string)
    (n : network) : result unit * network * list output :=
  let '(r, n', out) :=
    _request (fst ctx) "GET" ("/api/v1/events/" +:+ event_id) None None true n
  in (r ≫= fun _ => Ok tt, n', out).

(** The command [rsvps]. *)
Definition list_rsvps (ctx : string * option string) (event_id : string)
    (admin_token : option string) (n : network)
    : result unit * network * list output :=
  match _resolve_admin_token ctx admin_token with
  | (Raise e, out) => (Raise e, n, out)
  | (Ok token, out) =>
      let headers : gmap string string :=
        <["Authorization" := "Bearer " +:+ token]> ∅ in
      let '(r, n', out') :=
        _request (fst ctx) "GET" ("/api/v1/events/" +:+ event_id +:+ "/rsvps")
          (Some headers) None true n in
      (r ≫= fun _ => Ok tt, n', (out ++ out')%list)
  end.

Definition _collect_events_from_payload (data : pyval) : list pyval :=
  match data with
  | PDict kv =>
      match dict_get kv "events" with
      | PList events => List.filter is_dict events
      | _ =>
          match dict_get kv "channel" with
          | PDict channel =>
              match dict_get channel "events" with
              | PList events => List.filter is_dict events
              | _ => []
              end
          | _ => []
          end
      end
  | _ => []
  end.

(** The body [create-event] posts. *)
Definition create_event_payload (title start_time : string)
    (description end_time : option string) (timezone_offset_minutes : Z)
    (location channel_name : option string) (visibility_normalized : string)
    (is_private admin_approval_required : bool) : list (string * pyval) :=
  ([("title", PStr title);
    ("start_time", PStr start_time);
    ("timezone_offset_minutes", PInt timezone_offset_minutes);
    ("channel_visibility", PStr visibility_normalized);
    ("is_private", PBool is_private);
    ("admin_approval_required", PBool admin_approval_required)]
   ++ match description with
      | Some d => if truthy_opt description then [("description", PStr d)]
                  else []
      | None => []
      end
   ++ match end_time with
      | Some e => if truthy_opt end_time then [("end_time", PStr e)] else []
      | None => []
      end
   ++ match location with
      | Some l => if truthy_opt location then [("location", PStr l)] else []
      | None => []
      end
   ++ match channel_name with
      | Some c => [("channel_name", PStr c)]
      | None => []
      end)%list.

(** What [create-event] does with the body of a successful answer; the
    lines are those printed before it returned or raised. *)
Definition report_created (data : pyval) : result unit * list line :=
  match Commands.value_get data "admin_token",
        Commands.value_get data "event" with
  | Raise e, _ | _, Raise e => (Raise e, [])
  | Ok admin_token, Ok event =>
      let shown :=
        if truthy event
        then [Out (Secho "Event created:" "green"); Out (EchoJson event)]
        else [] in
      if truthy admin_token then
        let announced :=
          (shown
           ++ [Echo ""; Out (Secho "Admin token (save this):" "yellow");
               Echo (str admin_token)])%list in
        match
          match event with
          | PDict kv =>
              Commands.value_get (dict_get_default kv "links" (PDict []))
                "admin"
          | _ => Ok PNone
          end
        with
        | Raise e => (Raise e, announced)
        | Ok admin_link =>
            (Ok tt,
             (announced
              ++ (if truthy admin_link
                  then [Echo ("Admin URL: " +:+ str admin_link)]
                  else []))%list)
        end
      else (Ok tt, shown)
  end.

(** The command [create-event]. *)
Definition create_event (ctx : string * option string)
    (title start_time : string) (description end_time : option string)
    (timezone_offset_minutes : Z) (location channel_name : option string)
    (channel_visibility : string) (is_private admin_approval_required : bool)
    (n : network) : Commands.outcome unit * network * list line :=
  let visibility_normalized := lower channel_visibility in
  if negb (String.eqb visibility_normalized "public"
           || String.eqb visibility_normalized "private")
  then (Commands.Raised
          (Commands.BadParameter
             "channel-visibility must be 'public' or 'private'."), n, [])
  else
    let payload :=
      create_event_payload title start_time description end_time
        timezone_offset_minutes location channel_name visibility_normalized
        is_private admin_approval_required in
    match _request (fst ctx) "POST" "/api/v1/events" None
            (Some (PDict payload)) false n with
    | (Raise e, n', out) => (Commands.Raised (Commands.Exc e), n', Out <$> out)
    | (Ok data, n', out) =>
        if negb (truthy data) then (Commands.Returned tt, n', Out <$> out)
        else
          match report_created data with
          | (Raise e, more) =>
              (Commands.Raised (Commands.Exc e), n',
               ((Out <$> out) ++ more)%list)
          | (Ok _, more) =>
              (Commands.Returned tt, n', ((Out <$> out) ++ more)%list)
          end
    end.

End InviteCommands.

(** ** Sample answers *)

Module Answers.
Import Py Http.

(** A listing with one private and one public event. *)
Definition two_events : Response :=
  {| status_code := 200;
     text := "";
     json_value :=
       Some (PDict [("events",
                     PList [PDict [("id", PInt 1); ("is_private", PBool true)];
                            PDict [("id", PInt 2)]])]) |}.

(** A listing whose only element is a number. *)
Definition number_listing : Response :=
  {| status_code := 200; text := ""; json_value := Some (PList [PInt 1]) |}.



(** One channel. *)
Definition one_channel : Response :=
  {| status_code := 200; text := "";
     json_value := Some (PDict [("name", PStr "friends")]) |}.

(** A payload with events at the top level and under its channel, and one
    with events under its channel only. *)
Definition events_twice : pyval :=
  PDict [("channel", PDict [("events", PList [PDict [("id", PInt 3)]])]);
         ("events", PList [PDict [("id", PInt 1)]; PInt 5;
                           PDict [("id", PInt 2)]])].

Definition events_in_channel : pyval :=
  PDict [("channel", PDict [("events", PList [PDict [("id", PInt 3)]])]);
         ("events", PStr "none")].

(** A path with a line feed in it, and what [httpx] says of it. *)
Definition control_path : string :=
  "/api/v1/events/7" +:+ String (ascii_of_nat 10) "".

Definition invalid_url : string :=
  "Invalid non-printable ASCII character in URL".

(** A console that refuses every text that is not always rendered, such as
    one with the closing tag [[/b]] and no opening tag before it. *)
#[export] Instance strict_console : Rich.Console :=
  {| Rich.renders := fun _ => false |}.

End Answers.

(** * Properties *)

(** ** Python runtime: [rstrip] and [or] *)

Module PyFacts.
Import Py.

Lemma eqb_empty_cons c s : String.eqb (String c s) "" = false.
Proof. reflexivity. Qed.

Lemma append_nil_l s : "" +:+ s = s.
Proof. reflexivity. Qed.

Lemma append_cons c s t : String c s +:+ t = String c (s +:+ t).
Proof. reflexivity. Qed.

Lemma append_assoc a b c : (a +:+ b) +:+ c = a +:+ (b +:+ c).
Proof.
  induction a as [|x a IH]; [reflexivity|].
  rewrite !append_cons. f_equal. exact IH.
Qed.

(** The stripped text, followed by the characters removed, is the input. *)
Lemma rstrip_decompose chars s :
  exists tail, s = rstrip chars s +:+ tail
               /\ forall c, mem_char c tail = true -> mem_char c chars = true.
Proof.
  induction s as [|c s [tail [Heq Htail]]].
  - exists "". split; [reflexivity | intros c H; discriminate H].
  - cbn [rstrip].
    destruct (mem_char c chars && String.eqb (rstrip chars s) "") eqn:E.
    + apply andb_true_iff in E as [Hc Hr].
      apply String.eqb_eq in Hr. rewrite Hr, append_nil_l in Heq.
      exists (String c tail). split.
      * rewrite append_nil_l. f_equal. exact Heq.
      * intros c' H. cbn [mem_char] in H. apply orb_true_iff in H as [H|H].
        -- apply Ascii.eqb_eq in H. now subst.
        -- now apply Htail.
    + exists tail. split; [rewrite append_cons; f_equal; exact Heq | exact Htail].
Qed.

(** The last character of a stripped text is not one of the stripped ones. *)
Lemma rstrip_last chars s c :
  last_char (rstrip chars s) = Some c -> mem_char c chars = false.
Proof.
  induction s as [|a s IH]; simpl; [discriminate|].
  destruct (mem_char a chars) eqn:Ha; simpl.
  - destruct (rstrip chars s) as [|b r] eqn:Hr; simpl; [discriminate|].
    intros H. apply IH. exact H.
  - destruct (rstrip chars s) as [|b r] eqn:Hr; simpl.
    + intros [= <-]. exact Ha.
    + intros H. apply IH. exact H.
Qed.

Lemma rstrip_idempotent chars s : rstrip chars (rstrip chars s) = rstrip chars s.
Proof.
  induction s as [|a s IH]; simpl; [reflexivity|].
  destruct (mem_char a chars && String.eqb (rstrip chars s) "") eqn:E;
    [reflexivity|].
  simpl. rewrite IH, E. reflexivity.
Qed.

Lemma truthy_opt_true o :
  truthy_opt o = true <-> exists s, o = Some s /\ s <> "".
Proof.
  destruct o as [s|]; simpl.
  - rewrite negb_true_iff. split.
    + intros H. exists s. split; [reflexivity|].
      intros ->. discriminate H.
    + intros [s' [[= <-] Hne]]. apply String.eqb_neq. exact Hne.
  - split; [discriminate | intros [s [H _]]; discriminate H].
Qed.

End PyFacts.

(** ** Settings resolver and configuration store *)

Module ConfigProps.
Import Py Exn Fs Config PyFacts.

Lemma get_insert_eq (d : gmap string (option string)) key v :
  get (<[key := v]> d) key = v.
Proof. unfold get. now rewrite lookup_insert_eq. Qed.

Lemma get_insert_ne (d : gmap string (option string)) key key' v :
  key <> key' -> get (<[key := v]> d) key' = get d key'.
Proof. intros H. unfold get. now rewrite lookup_insert_ne. Qed.


(** A chain [a or b or c] is the first source that is neither absent nor
    empty, and [c] itself when there is none. *)
Lemma or_opt_chain a b c :
  or_opt (or_opt a b) c =
  match first_nonempty [a; b] with
  | Some v => Some v
  | None => c
  end.
Proof.
  unfold or_opt.
  destruct a as [[|x a]|]; destruct b as [[|y b]|]; reflexivity.
Qed.

Lemma or_opt_chain_default a b c d :
  or_default (or_opt (or_opt a b) c) d = default d (first_nonempty [a; b; c]).
Proof.
  unfold or_default, or_opt.
  destruct a as [[|x a]|]; destruct b as [[|y b]|]; destruct c as [[|z c]|];
    reflexivity.
Qed.

(** What [load_settings] returns: it fails only when reading the file
    does, and otherwise merges the three sources field by field. *)
Lemma load_settings_resolved environ f b t c oj q :
  load_settings environ f b t c oj q =
  fc ← _read_config_file f;
  Ok {| base_url :=
          rstrip "/" (default "http://localhost:8000"
                        (first_nonempty [b; environ !! "OPENRSVP_BASE_URL";
                                         get fc "base_url"]));
        token :=
          match first_nonempty [t; environ !! "OPENRSVP_TOKEN"] with
          | Some v => Some v
          | None => get fc "token"
          end;
        default_channel :=
          match first_nonempty [c; environ !! "OPENRSVP_DEFAULT_CHANNEL"] with
          | Some v => Some v
          | None => get fc "default_channel"
          end;
        output_json := oj;
        quiet := q |}.
Proof.
  unfold load_settings.
  destruct (_read_config_file f) as [fc|e]; cbn [mbind result_bind];
    [|reflexivity].
  rewrite get_insert_eq.
  rewrite (get_insert_ne _ "base_url" "token"), get_insert_eq by discriminate.
  rewrite (get_insert_ne _ "base_url" "default_channel") by discriminate.
  rewrite (get_insert_ne _ "token" "default_channel"), get_insert_eq
    by discriminate.
  rewrite or_opt_chain_default.
  rewrite !or_opt_chain. reflexivity.
Qed.


(** C1 (as amended): the resolved [base_url] is the value of the
    highest-precedence source, among the explicit value, the environment
    variable and the file value, that is neither absent nor the empty
    string, or the fixed default when there is none; trailing ["/"] are
    stripped. *)
Theorem load_settings_base_url environ f fc b t c oj q :
  _read_config_file f = Ok fc ->
  exists s,
    load_settings environ f b t c oj q = Ok s
    /\ base_url s =
       rstrip "/" (default "http://localhost:8000"
                     (first_nonempty [b; environ !! "OPENRSVP_BASE_URL";
                                      get fc "base_url"]))
    /\ forall ch, last_char (base_url s) = Some ch -> ch <> "/"%char.
Proof.
  intros Hf. eexists. split.
  { rewrite load_settings_resolved, Hf. reflexivity. }
  cbn [base_url]. split; [reflexivity|].
  intros ch Hlast Heq. apply rstrip_last in Hlast. subst ch. discriminate Hlast.
Qed.

Lemma load_settings_base_url_witness :
  exists s,
    load_settings {[ "OPENRSVP_BASE_URL" := "http://env.example/" ]} NotExists
      None None None false false = Ok s
    /\ base_url s =
       rstrip "/" (default "http://localhost:8000"
                     (first_nonempty
                        [None;
                         ({[ "OPENRSVP_BASE_URL" := "http://env.example/" ]}
                            : gmap string string) !! "OPENRSVP_BASE_URL";
                         get ∅ "base_url"]))
    /\ forall ch, last_char (base_url s) = Some ch -> ch <> "/"%char.
Proof.
  apply (load_settings_base_url
           {[ "OPENRSVP_BASE_URL" := "http://env.example/" ]} NotExists ∅).
  reflexivity.
Defined.

(** C1 (as stated) fails: with the explicit value [""] and the environment
    value ["http://env.example"], the highest-precedence source that is not
    absent is the explicit one, whose stripped value is [""]; the code
    resolves to the environment value. *)
Lemma load_settings_base_url_empty_explicit :
  load_settings {[ "OPENRSVP_BASE_URL" := "http://env.example" ]} NotExists
    (Some "") None None false false
  = Ok {| base_url := "http://env.example"; token := None;
          default_channel := None; output_json := false; quiet := false |}
  /\ rstrip "/" (default "http://localhost:8000"
                   (first_present [Some ""; Some "http://env.example"; None]))
     = "".
Proof. split; reflexivity. Qed.

(** The three fields [_read_config_file] reads from the table it chose. *)
Lemma read_config_table kv table :
  dict_get_default kv "openrsvp" (PDict kv) = PDict table ->
  _read_config_file (Loaded (PDict kv)) =
  Ok (<["base_url" := str_or_none (dict_get table "base_url")]>
      (<["token" := str_or_none (dict_get table "token")]>
       (<["default_channel" := str_or_none (dict_get table "default_channel")]>
        ∅))).
Proof. intros H. unfold _read_config_file. rewrite H. reflexivity. Qed.

(** C2 (as amended): when the parsed document has a table under
    [openrsvp], the three fields are read from that table alone, and a key
    missing from it is absent whatever the top level holds; when the
    document has no [openrsvp] key, the fields are read from the top
    level. *)
Theorem read_config_section_or_top_level kv table :
  assoc "openrsvp" kv = Some (PDict table)
  \/ (assoc "openrsvp" kv = None /\ table = kv) ->
  exists d,
    _read_config_file (Loaded (PDict kv)) = Ok d
    /\ get d "base_url" = str_or_none (dict_get table "base_url")
    /\ get d "token" = str_or_none (dict_get table "token")
    /\ get d "default_channel" = str_or_none (dict_get table "default_channel").
Proof.
  intros H. eexists. split.
  - apply read_config_table. unfold dict_get_default.
    destruct H as [-> | [-> ->]]; reflexivity.
  - rewrite get_insert_eq.
    rewrite (get_insert_ne _ "base_url" "token"), get_insert_eq by discriminate.
    rewrite (get_insert_ne _ "base_url" "default_channel") by discriminate.
    rewrite (get_insert_ne _ "token" "default_channel"), get_insert_eq
      by discriminate.
    repeat split.
Qed.

Lemma read_config_section_or_top_level_witness :
  exists d,
    _read_config_file
      (Loaded (PDict [("base_url", PStr "https://y");
                      ("openrsvp", PDict [("base_url", PStr "https://x")])]))
    = Ok d
    /\ get d "base_url"
       = str_or_none (dict_get [("base_url", PStr "https://x")] "base_url")
    /\ get d "token"
       = str_or_none (dict_get [("base_url", PStr "https://x")] "token")
    /\ get d "default_channel"
       = str_or_none
           (dict_get [("base_url", PStr "https://x")] "default_channel").
Proof.
  apply (read_config_section_or_top_level
           [("base_url", PStr "https://y");
            ("openrsvp", PDict [("base_url", PStr "https://x")])]
           [("base_url", PStr "https://x")]).
  left. reflexivity.
Defined.

(** A document whose [openrsvp] entry is not a table makes the reader
    raise: the entry has no [get]. *)
Example read_config_section_not_a_table :
  _read_config_file (Loaded (PDict [("openrsvp", PInt 1)]))
  = Raise (AttributeError "object has no attribute 'get'").
Proof. reflexivity. Qed.

(** C2 (as stated) fails: in a document whose [openrsvp] table holds only
    [base_url], a [token] at the top level is not used as a fallback; the
    field is read as absent. *)
Lemma read_config_no_top_level_fallback :
  exists d,
    _read_config_file
      (Loaded (PDict [("token", PStr "t");
                      ("openrsvp", PDict [("base_url", PStr "https://x")])]))
    = Ok d
    /\ get d "base_url" = Some "https://x"
    /\ get d "token" = None
    /\ assoc "token" [("base_url", PStr "https://x")] = None
    /\ str_or_none (dict_get [("token", PStr "t");
                              ("openrsvp",
                               PDict [("base_url", PStr "https://x")])]
                             "token") = Some "t".
Proof. eexists. split; [reflexivity|]. repeat split. Qed.

Section FileOnDisk.
Variable toml_loads : string -> result pyval.


End FileOnDisk.



End ConfigProps.

(** ** API client *)

Module ClientProps.
Import Py Exn Http Client Samples.

(** One call asks [httpx] for exactly one request when the client is
    open. *)
Lemma request_sends self client method path kw n :
  _client self = Some client ->
  sent (snd (_request self method path kw n))
  = (sent n ++ [build_request client method path kw])%list
  /\ respond (snd (_request self method path kw n)) = respond n.
Proof.
  intros Hc. unfold _request, send. rewrite Hc.
  destruct (respond n (build_request client method path kw)) as [exc|r|msg];
    [split; reflexivity| |split; reflexivity].
  destruct ((status_code r =? 401)%Z || (status_code r =? 403)%Z);
    [split; reflexivity|].
  destruct (is_error r); split; reflexivity.
Qed.

(** C4: once a response with status 401 or 403 is obtained, the request
    fails with [AuthError] carrying that status and the fixed guidance
    message, whatever the body: the message tells the user to provide a
    token through the flag [--token], the environment variable
    [OPENRSVP_TOKEN] or the configuration file. The exception is neither a
    [NetworkError] nor an [APIError] of the base class. *)
Theorem request_unauthorized self client method path kw n response :
  _client self = Some client ->
  respond n (build_request client method path kw) = Responded response ->
  status_code response = 401%Z \/ status_code response = 403%Z ->
  exists e,
    fst (_request self method path kw n) = Raise e
    /\ e = AuthError (status_code response)
             "Authentication failed. Provide a valid token via --token, OPENRSVP_TOKEN, or ~/.config/openrsvp/config.toml."
    /\ is_AuthError e = true
    /\ is_NetworkError e = false
    /\ is_plain_APIError e = false.
Proof.
  intros Hc Hr Hs. eexists. split; [|repeat split].
  unfold _request, send. rewrite Hc, Hr.
  destruct Hs as [-> | ->]; reflexivity.
Qed.

Lemma request_unauthorized_witness :
  exists e,
    fst (get (__aenter__ (new (settings_with_token None))) "/api/v1/events" []
           (always (Responded forbidden_html))) = Raise e
    /\ e = AuthError 403
             "Authentication failed. Provide a valid token via --token, OPENRSVP_TOKEN, or ~/.config/openrsvp/config.toml."
    /\ is_AuthError e = true
    /\ is_NetworkError e = false
    /\ is_plain_APIError e = false.
Proof.
  refine (request_unauthorized
            (__aenter__ (new (settings_with_token None))) _ "GET"
            "/api/v1/events" _ (always (Responded forbidden_html))
            forbidden_html _ _ _).
  - reflexivity.
  - reflexivity.
  - right. reflexivity.
Defined.




(** C6 (as amended): when the remote side answers 204 with no body, the API
    client's request returns normally; the body does not parse, so the
    payload is the body text, the empty string, rather than [None]. The
    [invite] client's [_request] returns [None] on 204 without reading the
    body. Neither raises. *)
Theorem request_no_content self client method path kw headers json_payload
    echo n response :
  _client self = Some client ->
  (forall r, respond n r = Responded response) ->
  status_code response = 204%Z ->
  text response = "" ->
  json_value response = None ->
  fst (_request self method path kw n) = Ok (PStr "")
  /\ fst (fst (Invite._request (client_base_url client) method path headers
                 json_payload echo n)) = Ok PNone.
Proof.
  intros Hc Hr Hs Ht Hj. split.
  - unfold _request, send. rewrite Hc, Hr, Hs, Hj, Ht.
    unfold is_error. rewrite Hs. reflexivity.
  - unfold Invite._request, send. rewrite Hr, Hs. reflexivity.
Qed.

Lemma request_no_content_witness :
  fst (delete (__aenter__ (new (settings_with_token None)))
         "/api/v1/events/7" (always (Responded no_content))) = Ok (PStr "")
  /\ fst (fst (Invite._request "https://rsvp.example" "DELETE"
                 "/api/v1/events/7" None None true
                 (always (Responded no_content)))) = Ok PNone.
Proof.
  refine (request_no_content
            (__aenter__ (new (settings_with_token None))) _ "DELETE"
            "/api/v1/events/7" _ None None true
            (always (Responded no_content)) no_content _ _ _ _ _);
    reflexivity.
Defined.

(** C6 (as stated) fails for the API client: on a 204 response with no body
    the payload returned is the empty string, which is not the absent value
    [None]. *)
Lemma request_no_content_payload :
  fst (delete (__aenter__ (new (settings_with_token None)))
         "/api/v1/events/7" (always (Responded no_content))) = Ok (PStr "")
  /\ is_str (PStr "") = true
  /\ is_str PNone = false.
Proof. repeat split. Qed.

(** The [Authorization] header a client opened on [s] is created with. *)
Lemma aenter_authorization s :
  exists client,
    _client (__aenter__ (new s)) = Some client
    /\ client_headers client !! "Authorization"
       = match Config.token s with
         | Some t => if String.eqb t "" then None else Some ("Bearer " +:+ t)
         | None => None
         end.
Proof.
  eexists. split; [reflexivity|]. cbn.
  destruct (Config.token s) as [t|]; [|reflexivity].
  cbn. destruct (String.eqb t ""); cbn; [reflexivity|].
  apply lookup_insert_eq.
Qed.

Lemma perform_sends self client c n :
  _client self = Some client ->
  exists r,
    sent (snd (perform self c n)) = (sent n ++ [r])%list
    /\ headers r = client_headers client.
Proof.
  intros Hc.
  destruct c; cbn [perform]; unfold get, post, delete, patch;
    eexists; (split; [apply (request_sends _ _ _ _ _ _ Hc) | reflexivity]).
Qed.

Lemma session_sends self client calls : forall n,
  _client self = Some client ->
  exists reqs,
    sent (snd (session self calls n)) = (sent n ++ reqs)%list
    /\ length reqs = length calls
    /\ Forall (fun r => headers r = client_headers client) reqs.
Proof.
  induction calls as [|c calls IH]; intros n Hc.
  - exists []. cbn. rewrite app_nil_r. repeat split. constructor.
  - cbn [session].
    destruct (perform self c n) as [r n'] eqn:Hp.
    destruct (session self calls n') as [rs n''] eqn:Hs.
    destruct (perform_sends self client c n Hc) as (req & Hsent & Hh).
    destruct (IH n' Hc) as (reqs & Hsent' & Hlen & Hall).
    rewrite Hp in Hsent. rewrite Hs in Hsent'. cbn [snd] in *.
    exists (req :: reqs). rewrite Hsent', Hsent, <- app_assoc.
    repeat split; [cbn; now rewrite Hlen | now constructor].
Qed.

(** C7 (as amended): every request issued by a client opened on the
    settings [s] carries [Authorization: Bearer <token>] when the token of
    [s] is present and not the empty string, and carries no [Authorization]
    header when the token is absent or empty. In particular, settings
    resolved from the explicit token ["abc"] with no environment and no file
    put [Authorization: Bearer abc] on every request. *)
Theorem session_authorization s calls n :
  (exists reqs,
     sent (snd (session (__aenter__ (new s)) calls n)) = (sent n ++ reqs)%list
     /\ length reqs = length calls
     /\ Forall (fun r =>
                  headers r !! "Authorization"
                  = match Config.token s with
                    | Some t =>
                        if String.eqb t "" then None
                        else Some ("Bearer " +:+ t)
                    | None => None
                    end) reqs)
  /\ (exists s' reqs,
        Config.load_settings ∅ Fs.NotExists None (Some "abc") None false false
        = Ok s'
        /\ sent (snd (session (__aenter__ (new s')) calls n))
           = (sent n ++ reqs)%list
        /\ length reqs = length calls
        /\ Forall (fun r => headers r !! "Authorization" = Some "Bearer abc")
             reqs).
Proof.
  assert (Hgen : forall s0, exists reqs,
     sent (snd (session (__aenter__ (new s0)) calls n)) = (sent n ++ reqs)%list
     /\ length reqs = length calls
     /\ Forall (fun r =>
                  headers r !! "Authorization"
                  = match Config.token s0 with
                    | Some t =>
                        if String.eqb t "" then None
                        else Some ("Bearer " +:+ t)
                    | None => None
                    end) reqs).
  { intros s0. destruct (aenter_authorization s0) as (client & Hc & Hh).
    destruct (session_sends _ client calls n Hc) as (reqs & Hsent & Hlen & Hall).
    exists reqs. repeat split; [exact Hsent | exact Hlen |].
    eapply Forall_impl; [exact Hall|]. cbn beta. intros r ->. exact Hh. }
  split; [apply Hgen|].
  destruct (Hgen (settings_with_token (Some "abc")))
    as (reqs & Hsent & Hlen & Hall).
  eexists. exists reqs. split; [reflexivity|].
  split; [exact Hsent|]. split; [exact Hlen | exact Hall].
Qed.

(** C7 (as stated) fails: settings whose token is present but empty, as
    resolved from a file with an empty [token] entry, open a client whose
    requests carry no [Authorization] header. *)
Lemma session_empty_token_no_header :
  Config.load_settings ∅
    (Fs.Loaded (PDict [("token", PStr "")])) None None None false false
  = Ok (settings_with_token (Some ""))
  /\ (fun r => headers r !! "Authorization")
     <$> sent (snd (get (__aenter__ (new (settings_with_token (Some ""))))
                      "/api/v1/events" [] (always (Responded not_found))))
     = [None].
Proof. split; reflexivity. Qed.

End ClientProps.

(** ** Files *)

Module FsProps.
Import Py Exn Fs.

Lemma mkdir_from_dir todo : forall s done s',
  mkdir_from s done todo = Ok s' ->
  todo <> [] ->
  nodes s' !! (done ++ todo)%list = Some Dir.
Proof.
  induction todo as [|c rest IH]; intros s done s' H Hne; [congruence|].
  cbn [mkdir_from] in H.
  replace (done ++ c :: rest)%list with ((done ++ [c]) ++ rest)%list
    by (rewrite <- app_assoc; reflexivity).
  destruct (nodes s !! (done ++ [c])%list) as [[|text]|] eqn:Hn.
  - destruct rest as [|c' rest].
    + cbn in H. injection H as <-. rewrite app_nil_r. exact Hn.
    + apply (IH _ _ _ H). discriminate.
  - discriminate H.
  - destruct (refused s !! (done ++ [c])%list) as [e|]; [discriminate H|].
    destruct rest as [|c' rest].
    + cbn in H. injection H as <-. rewrite app_nil_r. cbn.
      apply lookup_insert_eq.
    + apply (IH _ _ _ H). discriminate.
Qed.


Lemma write_text_written s p text s' :
  write_text s p text = Ok s' ->
  nodes s' = <[p := File text]> (nodes s).
Proof.
  unfold write_text. intros H.
  destruct (negb (is_dir s (parent p))); [discriminate H|].
  destruct (nodes s !! p) as [[|t]|]; try discriminate H;
    destruct (refused s !! p); try discriminate H;
    injection H as <-; reflexivity.
Qed.


Lemma parent_last (p : path) c : parent (p ++ [c])%list = p.
Proof. unfold parent. apply removelast_last. Qed.

Lemma parent_neq (p : path) c : p <> (p ++ [c])%list.
Proof.
  intros H. apply (f_equal length) in H. rewrite length_app in H.
  cbn in H. lia.
Qed.

Lemma is_dir_lookup s (p : path) : nodes s !! p = Some Dir -> is_dir s p = true.
Proof. intros H. destruct p; [reflexivity|]. cbn. now rewrite H. Qed.

(** [mkdir] succeeds when every prefix on the way is a directory already or
    is missing and not refused; it leaves [refused] and every node off the
    way as they were. *)
Lemma mkdir_from_succeeds todo : forall s (done : path),
  (forall q : path, q `prefix_of` (done ++ todo)%list ->
             length done < length q ->
             nodes s !! q = Some Dir
             \/ (nodes s !! q = None /\ refused s !! q = None)) ->
  exists s',
    mkdir_from s done todo = Ok s'
    /\ refused s' = refused s
    /\ forall q : path, ~ q `prefix_of` (done ++ todo)%list ->
                 nodes s' !! q = nodes s !! q.
Proof.
  induction todo as [|c rest IH]; intros s done Hclear.
  - exists s. repeat split.
  - cbn [mkdir_from].
    assert (Hp : (done ++ [c])%list `prefix_of` (done ++ c :: rest)%list).
    { exists rest. rewrite <- app_assoc. reflexivity. }
    assert (Hreassoc : ((done ++ [c]) ++ rest)%list = (done ++ c :: rest)%list).
    { rewrite <- app_assoc. reflexivity. }
    destruct (Hclear _ Hp) as [Hn | [Hn Href]].
    { rewrite length_app. cbn. lia. }
    + rewrite Hn.
      destruct (IH s (done ++ [c])%list) as (s' & Hmk & Hr & Hkeep).
      { intros q Hq Hlen. rewrite Hreassoc in Hq. apply Hclear; [exact Hq|].
        rewrite length_app in Hlen. cbn in Hlen. lia. }
      exists s'. split; [exact Hmk|]. split; [exact Hr|].
      intros q Hq. apply Hkeep. now rewrite Hreassoc.
    + rewrite Hn, Href.
      destruct (IH {| nodes := <[(done ++ [c])%list := Dir]> (nodes s);
                      refused := refused s |} (done ++ [c])%list)
        as (s' & Hmk & Hr & Hkeep).
      { intros q Hq Hlen. rewrite Hreassoc in Hq. cbn [nodes refused].
        rewrite lookup_insert_ne by (intros <-; lia).
        apply Hclear; [exact Hq|].
        rewrite length_app in Hlen. cbn in Hlen. lia. }
      exists s'. split; [exact Hmk|]. split; [exact Hr|].
      intros q Hq. rewrite Hkeep by now rewrite Hreassoc.
      cbn [nodes]. apply lookup_insert_ne. intros <-. exact (Hq Hp).
Qed.

End FsProps.

(** ** The sample TOML reader on the line [configure] writes *)

Module TomlFacts.
Import Py Exn Toml TomlSample.

Lemma substring_all (s : string) m :
  String.length s <= m -> String.substring 0 m s = s.
Proof.
  revert m. induction s as [|c s IH]; intros [|m] H; cbn in *;
    try reflexivity; [lia|].
  f_equal. apply IH. lia.
Qed.

Lemma read_value_literal v :
  literal v = true ->
  read_value (v +:+ String dquote (String (ascii_of_nat 10) "")) = Some v.
Proof.
  induction v as [|c v IH]; intros H; [reflexivity|].
  cbn [literal] in H. apply andb_true_iff in H as [Hc Hv].
  unfold literal_char in Hc. apply andb_true_iff in Hc as [Hc Hb].
  apply andb_true_iff in Hc as [Hp Hq].
  apply negb_true_iff in Hq, Hb.
  rewrite PyFacts.append_cons. cbn [read_value].
  rewrite Hq, Hb, Hp. cbn [orb negb]. rewrite (IH Hv). reflexivity.
Qed.

Lemma read_entry_key c key rest :
  bare_key_char c = true ->
  read_entry key (String c rest) = read_entry (key +:+ String c "") rest.
Proof. intros H. cbn [read_entry]. now rewrite H. Qed.

Lemma read_entry_value key rest :
  String.eqb key "" = false ->
  read_entry key (String " " (String "=" (String " " (String dquote rest))))
  = match read_value rest with
    | Some v => Some (key, v)
    | None => None
    end.
Proof.
  intros H. cbn [read_entry].
  change (bare_key_char " ") with false. cbv iota.
  change (String.substring 0 4
            (String " " (String "=" (String " " (String dquote rest)))))
    with (String " " (String "=" (String " " (String dquote
           (String.substring 0 0 rest))))).
  replace (String.substring 0 0 rest) with "" by (destruct rest; reflexivity).
  rewrite H.
  change (String.substring 4
            (String.length
               (String " " (String "=" (String " " (String dquote rest)))))
            (String " " (String "=" (String " " (String dquote rest)))))
    with (String.substring 0 (4 + String.length rest) rest).
  rewrite substring_all by lia. reflexivity.
Qed.

(** The sample reader reads the line [base_url = "v"] as the entry it
    spells, for every [v] made of literal characters. *)
Lemma one_line_toml_literal v :
  literal v = true ->
  one_line_toml (ConfigCli.config_text v) = Ok (PDict [("base_url", PStr v)]).
Proof.
  intros H. unfold one_line_toml.
  change (ConfigCli.config_text v)
    with (String "b" (String "a" (String "s" (String "e" (String "_"
          (String "u" (String "r" (String "l"
          (String " " (String "=" (String " " (String dquote
             (v +:+ String dquote (String (ascii_of_nat 10) "")))))))))))))).
  do 8 (rewrite read_entry_key by reflexivity).
  change ((((((((("" +:+ "b") +:+ "a") +:+ "s") +:+ "e") +:+ "_") +:+ "u")
            +:+ "r") +:+ "l")) with "base_url".
  rewrite read_entry_value by reflexivity.
  rewrite (read_value_literal v H). reflexivity.
Qed.

End TomlFacts.

(** ** The [invite] client *)

Module InviteProps.
Import Py Exn Fs Invite FsProps.

Lemma config_path_split home :
  CONFIG_PATH home = ((home ++ [".config"; "invite"]) ++ ["config.toml"])%list.
Proof. unfold CONFIG_PATH. rewrite <- app_assoc. reflexivity. Qed.

(** What [configure] leaves on the disk when it returns normally. *)
Lemma configure_written home s base_url s' out :
  configure home s base_url = (Ok tt, s', out) ->
  nodes s' !! CONFIG_PATH home
  = Some (File (ConfigCli.config_text (rstrip "/" base_url)))
  /\ nodes s' !! parent (CONFIG_PATH home) = Some Dir.
Proof.
  intros Hconf. unfold configure in Hconf.
  destruct (mkdir_parents s (parent (CONFIG_PATH home))) as [s1|e] eqn:Hmk;
    [|discriminate Hconf].
  fold (ConfigCli.config_text (_normalize_base_url base_url)) in Hconf.
  unfold _normalize_base_url in Hconf.
  destruct (write_text s1 (CONFIG_PATH home)
              (ConfigCli.config_text (rstrip "/" base_url)))
    as [s2|e] eqn:Hw; [|discriminate Hconf].
  injection Hconf as <- _.
  apply write_text_written in Hw. rewrite Hw. split.
  - apply lookup_insert_eq.
  - rewrite config_path_split, parent_last.
    rewrite lookup_insert_ne
      by (intros H; symmetry in H; exact (parent_neq _ _ H)).
    rewrite config_path_split, parent_last in Hmk.
    apply (mkdir_from_dir _ _ [] _ Hmk).
    destruct home; discriminate.
Qed.

(** [configure] returns normally on every disk where each directory on the
    way to the configuration file exists or can be created, and the file
    itself can be written. *)
Lemma configure_succeeds home s base_url :
  (forall q : path, q `prefix_of` parent (CONFIG_PATH home) -> q <> [] ->
             nodes s !! q = Some Dir
             \/ (nodes s !! q = None /\ refused s !! q = None)) ->
  nodes s !! CONFIG_PATH home <> Some Dir ->
  refused s !! CONFIG_PATH home = None ->
  exists s' out, configure home s base_url = (Ok tt, s', out).
Proof.
  intros Hclear Hnodir Hfree. unfold configure, mkdir_parents.
  rewrite config_path_split in *. rewrite parent_last in *.
  set (dir := (home ++ [".config"; "invite"])%list) in *.
  destruct (mkdir_from_succeeds dir s []) as (s1 & Hmk & Href & Hkeep).
  { intros q Hq Hpos. cbn [app] in Hq. apply Hclear; [exact Hq|].
    intros ->. cbn in Hpos. lia. }
  rewrite Hmk.
  assert (Hdir : nodes s1 !! dir = Some Dir).
  { apply (mkdir_from_dir dir s [] s1 Hmk). subst dir.
    destruct home; discriminate. }
  assert (Hsame : nodes s1 !! (dir ++ ["config.toml"])%list
                  = nodes s !! (dir ++ ["config.toml"])%list).
  { apply Hkeep. cbn [app]. intros Hq. apply prefix_length in Hq.
    rewrite length_app in Hq. cbn in Hq. lia. }
  unfold write_text. rewrite parent_last, (is_dir_lookup _ _ Hdir).
  cbn [negb]. rewrite Hsame, Href, Hfree.
  destruct (nodes s !! (dir ++ ["config.toml"])%list) as [[|t]|];
    [congruence | eexists _, _; reflexivity | eexists _, _; reflexivity].
Qed.

Section WriteThenRead.
Variable toml_loads : string -> result pyval.

(** C8 (as amended): on a disk where the configuration file can be
    written, [configure] returns normally, having created the missing
    parent directories and overwritten the file with the single [base_url]
    entry, trailing ["/"] stripped. When the normalized value is made of
    printable characters other than the quote and the backslash, which the
    TOML library reads back unchanged from a basic string, a following
    [_load_config_base_url] returns that normalized value if it is not
    empty, and [None] if it is empty. For ["https://example.com/"] the
    value read back is ["https://example.com"]. *)
Theorem configure_then_load home s base_url :
  (forall q : path, q `prefix_of` parent (CONFIG_PATH home) -> q <> [] ->
             nodes s !! q = Some Dir
             \/ (nodes s !! q = None /\ refused s !! q = None)) ->
  nodes s !! CONFIG_PATH home <> Some Dir ->
  refused s !! CONFIG_PATH home = None ->
  (forall v, Toml.literal v = true ->
             toml_loads (ConfigCli.config_text v)
             = Ok (PDict [("base_url", PStr v)])) ->
  Toml.literal (rstrip "/" base_url) = true ->
  exists s' out,
    configure home s base_url = (Ok tt, s', out)
    /\ nodes s' !! CONFIG_PATH home
       = Some (File (ConfigCli.config_text (rstrip "/" base_url)))
    /\ nodes s' !! parent (CONFIG_PATH home) = Some Dir
    /\ _load_config_base_url (read_file toml_loads s' (CONFIG_PATH home))
       = if String.eqb (rstrip "/" base_url) "" then None
         else Some (rstrip "/" base_url).
Proof.
  intros Hclear Hnodir Hfree Hloads Hlit.
  destruct (configure_succeeds home s base_url Hclear Hnodir Hfree)
    as (s' & out & Hconf).
  destruct (configure_written _ _ _ _ _ Hconf) as [Hfile Hdir].
  exists s', out. split; [exact Hconf|]. split; [exact Hfile|].
  split; [exact Hdir|].
  unfold read_file. rewrite Hfile, (Hloads _ Hlit). cbn.
  destruct (String.eqb (rstrip "/" base_url) ""); reflexivity.
Qed.

End WriteThenRead.

Lemma configure_then_load_witness :
  exists s' out,
    configure Samples.home Samples.empty_disk "https://example.com/"
    = (Ok tt, s', out)
    /\ nodes s' !! CONFIG_PATH Samples.home
       = Some (File (ConfigCli.config_text "https://example.com"))
    /\ nodes s' !! parent (CONFIG_PATH Samples.home) = Some Dir
    /\ _load_config_base_url
         (read_file TomlSample.one_line_toml s' (CONFIG_PATH Samples.home))
       = Some "https://example.com".
Proof.
  refine (configure_then_load TomlSample.one_line_toml Samples.home
            Samples.empty_disk "https://example.com/" _ _ _ _ _).
  - intros q _ _. right. split; apply lookup_empty.
  - discriminate.
  - reflexivity.
  - exact TomlFacts.one_line_toml_literal.
  - reflexivity.
Defined.

(** C8 (as stated) fails: [configure] on ["/"] returns normally and writes
    the entry [base_url = ""], the normalized value being the empty string;
    the reader loads that entry and [_load_config_base_url] returns [None],
    not the normalized value. *)
Lemma configure_slash_reads_absent :
  exists s' out,
    configure Samples.home Samples.empty_disk "/" = (Ok tt, s', out)
    /\ _normalize_base_url "/" = ""
    /\ nodes s' !! CONFIG_PATH Samples.home
       = Some (File (ConfigCli.config_text ""))
    /\ TomlSample.one_line_toml (ConfigCli.config_text "")
       = Ok (PDict [("base_url", PStr "")])
    /\ _load_config_base_url
         (read_file TomlSample.one_line_toml s' (CONFIG_PATH Samples.home))
       = None.
Proof. eexists _, _. repeat split. Qed.

End InviteProps.
(** ** The [config set-base-url] command *)

Module ConfigCliProps.
Import Py Exn Fs ConfigCli FsProps.

(** The base URL the command writes: the positional argument, else the
    option, else the fixed default. *)
Lemma set_base_url_choice a o d :
  or_default (or_opt a o) d = default d (Config.first_nonempty [a; o]).
Proof. destruct a as [[|x a]|]; destruct o as [[|y o]|]; reflexivity. Qed.




End ConfigCliProps.

(** ** API client: the outcomes of a request *)

Module ClientMore.
Import Py Exn Http Client Samples.

Lemma issued_extend n n' reqs :
  sent n' = (sent n ++ reqs)%list ->
  respond n' = respond n ->
  issued n'
  = (issued n
     ++ List.filter (fun r => negb (rejected (respond n r))) reqs)%list.
Proof.
  intros Hs Hr. unfold issued. rewrite Hs, Hr. apply List.filter_app.
Qed.





(** X3: a client that was never entered sends nothing: every call of a
    session on it raises [RuntimeError] and the network is left as it
    was. *)
Theorem session_on_unopened_client s calls n :
  session (new s) calls n
  = ((fun _ =>
        Raise (RuntimeError
                 "APIClient must be used within an async context manager"))
       <$> calls, n).
Proof.
  induction calls as [|c calls IH]; [reflexivity|].
  cbn [session]. replace (perform (new s) c n)
    with (Raise (A := pyval)
            (RuntimeError
               "APIClient must be used within an async context manager"), n)
    by (destruct c; reflexivity).
  rewrite IH. reflexivity.
Qed.

Lemma perform_request self client c n :
  _client self = Some client ->
  exists r,
    sent (snd (perform self c n)) = (sent n ++ [r])%list
    /\ respond (snd (perform self c n)) = respond n
    /\ req_base_url r = client_base_url client
    /\ match c with
       | Get p ps =>
           Http.method r = "GET" /\ req_path r = p /\ json r = None
           /\ params r = match ps with [] => None | _ => Some (PDict ps) end
       | Post p j =>
           Http.method r = "POST" /\ req_path r = p /\ json r = j
           /\ params r = None
       | Delete p =>
           Http.method r = "DELETE" /\ req_path r = p /\ json r = None
           /\ params r = None
       | Patch p j =>
           Http.method r = "PATCH" /\ req_path r = p /\ json r = j
           /\ params r = None
       end.
Proof.
  intros Hc.
  destruct c as [p ps|p j|p|p j]; cbn [perform];
    unfold get, post, delete, patch; eexists;
    (split; [apply (ClientProps.request_sends _ _ _ _ _ _ Hc)|]);
    (split; [apply (ClientProps.request_sends _ _ _ _ _ _ Hc)|]);
    (split; [reflexivity|]); repeat split.
  destruct ps; reflexivity.
Qed.

(** X4: the requests [httpx] tries to send in a session on a client opened
    on [s] are those of the calls, one per call and in the order of the
    calls, that it does not reject. The request of a call goes to the base
    URL of [s] with the method and the path of the call; [get] sends its
    parameters, or none when it has none, and [post] and [patch] send their
    JSON body. *)
Theorem session_requests_follow_calls s calls : forall n,
  exists reqs,
    issued (snd (session (__aenter__ (new s)) calls n))
    = (issued n
       ++ List.filter (fun r => negb (rejected (respond n r))) reqs)%list
    /\ Forall2
         (fun c r =>
            req_base_url r = Config.base_url s
            /\ match c with
               | Get p ps =>
                   Http.method r = "GET" /\ req_path r = p /\ json r = None
                   /\ params r
                      = match ps with [] => None | _ => Some (PDict ps) end
               | Post p j =>
                   Http.method r = "POST" /\ req_path r = p /\ json r = j
                   /\ params r = None
               | Delete p =>
                   Http.method r = "DELETE" /\ req_path r = p
                   /\ json r = None /\ params r = None
               | Patch p j =>
                   Http.method r = "PATCH" /\ req_path r = p /\ json r = j
                   /\ params r = None
               end)
         calls reqs.
Proof.
  assert (Hgen : forall n, exists reqs,
    sent (snd (session (__aenter__ (new s)) calls n)) = (sent n ++ reqs)%list
    /\ respond (snd (session (__aenter__ (new s)) calls n)) = respond n
    /\ Forall2
         (fun c r =>
            req_base_url r = Config.base_url s
            /\ match c with
               | Get p ps =>
                   Http.method r = "GET" /\ req_path r = p /\ json r = None
                   /\ params r
                      = match ps with [] => None | _ => Some (PDict ps) end
               | Post p j =>
                   Http.method r = "POST" /\ req_path r = p /\ json r = j
                   /\ params r = None
               | Delete p =>
                   Http.method r = "DELETE" /\ req_path r = p
                   /\ json r = None /\ params r = None
               | Patch p j =>
                   Http.method r = "PATCH" /\ req_path r = p /\ json r = j
                   /\ params r = None
               end)
         calls reqs).
  { induction calls as [|c calls IH]; intros n.
    - exists []. cbn. rewrite app_nil_r. repeat split. constructor.
    - cbn [session].
      destruct (perform_request (__aenter__ (new s)) _ c n eq_refl)
        as (r & Hsent & Hresp & Hbase & Hcall).
      destruct (perform (__aenter__ (new s)) c n) as [res n'] eqn:Hp.
      destruct (IH n') as (reqs & Hsent' & Hresp' & Hall).
      destruct (session (__aenter__ (new s)) calls n') as [rs n''] eqn:Hs.
      cbn [snd] in *. exists (r :: reqs).
      rewrite Hsent', Hsent, <- app_assoc. split; [reflexivity|].
      split; [congruence|].
      constructor; [split; [exact Hbase | exact Hcall] | exact Hall]. }
  intros n. destruct (Hgen n) as (reqs & Hsent & Hresp & Hall).
  exists reqs. split; [|exact Hall].
  apply issued_extend; assumption.
Qed.

End ClientMore.

(** ** The console: texts that are always rendered *)

Module RichFacts.
Import Py Rich PyFacts.

Lemma mem_char_app c a b :
  mem_char c (a +:+ b) = mem_char c a || mem_char c b.
Proof.
  induction a as [|x a IH]; [reflexivity|].
  rewrite append_cons. cbn [mem_char]. rewrite IH. apply orb_assoc.
Qed.

Lemma plain_app a b : plain (a +:+ b) = plain a && plain b.
Proof. unfold plain. rewrite mem_char_app. apply negb_orb. Qed.

Lemma closes_plain close text :
  plain text = true -> closes close (text +:+ close) = true.
Proof.
  induction text as [|c text IH]; intros H.
  - rewrite append_nil_l. destruct close; cbn [closes];
      now rewrite String.eqb_refl.
  - rewrite append_cons. cbn [closes].
    destruct (String.eqb (String c (text +:+ close)) close); [reflexivity|].
    unfold plain in H. cbn [mem_char] in H. apply negb_true_iff in H.
    apply orb_false_iff in H as [Hc Ht].
    rewrite Ascii.eqb_sym, Hc. cbn [negb andb]. apply IH.
    unfold plain. now rewrite Ht.
Qed.

Section Lines.
Context {console : Console}.

(** A line in one colour whose text has no ["["] is always rendered. *)
Lemma red_line_ok text :
  plain text = true -> markup_ok ("[red]" +:+ text +:+ "[/red]") = true.
Proof.
  intros H. unfold markup_ok.
  replace (tagged "red" ("[red]" +:+ text +:+ "[/red]")) with true;
    [now rewrite orb_true_r|].
  symmetry. exact (closes_plain "[/red]" text H).
Qed.

Lemma green_line_ok text :
  plain text = true -> markup_ok ("[green]" +:+ text +:+ "[/green]") = true.
Proof.
  intros H. unfold markup_ok.
  replace (tagged "green" ("[green]" +:+ text +:+ "[/green]")) with true;
    [now rewrite !orb_true_r|].
  symmetry. exact (closes_plain "[/green]" text H).
Qed.

Lemma plain_ok text : plain text = true -> markup_ok text = true.
Proof. intros H. unfold markup_ok. now rewrite H. Qed.

End Lines.


End RichFacts.

(** ** Command handlers: what a failed request prints *)

Module CommandsProps.
Import Py Exn Http Client Rich Commands Samples Answers RichFacts.

Section Handlers.
Context {console : Console}.

Lemma request_result self client method path kw n :
  _client self = Some client ->
  fst (_request self method path kw n)
  = match respond n (build_request client method path kw) with
    | Failed exc =>
        Raise (NetworkError ("Network error contacting "
                             +:+ Config.base_url (settings self)
                             +:+ ": " +:+ exc))
    | Responded r =>
        if (status_code r =? 401)%Z || (status_code r =? 403)%Z
        then Raise (AuthError (status_code r) AUTH_MESSAGE)
        else
          let payload := default (PStr (text r)) (json_value r) in
          if is_error r
          then Raise (APIError (status_code r)
                        (str (if is_str payload then payload
                              else por payload (PStr (text r))))
                        payload)
          else Ok payload
    | Rejected msg => Raise (InvalidURL msg)
    end.
Proof.
  intros Hc. unfold _request, send. rewrite Hc.
  destruct (respond n (build_request client method path kw)) as [exc|r|msg];
    [reflexivity| |reflexivity].
  destruct ((status_code r =? 401)%Z || (status_code r =? 403)%Z);
    [reflexivity|].
  destruct (json_value r); cbn; destruct (is_error r); reflexivity.
Qed.

(** The result of any call when the remote side always gives the same
    answer. *)
Lemma perform_result s c n o :
  (forall q, respond n q = o) ->
  fst (perform (__aenter__ (new s)) c n)
  = match o with
    | Failed exc =>
        Raise (NetworkError ("Network error contacting "
                             +:+ Config.base_url s +:+ ": " +:+ exc))
    | Responded r =>
        if (status_code r =? 401)%Z || (status_code r =? 403)%Z
        then Raise (AuthError (status_code r) AUTH_MESSAGE)
        else
          let payload := default (PStr (text r)) (json_value r) in
          if is_error r
          then Raise (APIError (status_code r)
                        (str (if is_str payload then payload
                              else por payload (PStr (text r))))
                        payload)
          else Ok payload
    | Rejected msg => Raise (InvalidURL msg)
    end.
Proof.
  intros Ho. destruct c; cbn [perform]; unfold get, post, delete, patch;
    erewrite request_result by reflexivity; rewrite Ho; reflexivity.
Qed.

Lemma console_print_one item :
  console_print [item]
  = if shown item then (Ok tt, [item]) else (Raise MarkupError, []).
Proof. cbn. destruct (shown item); reflexivity. Qed.

Lemma print_one item :
  print_and_return [item]
  = if shown item then (Returned tt, [item])
    else (Raised (Exc MarkupError), []).
Proof.
  unfold print_and_return. rewrite console_print_one.
  destruct (shown item); reflexivity.
Qed.

Lemma print_json data :
  print_and_return [PrintJson data] = (Returned tt, [PrintJson data]).
Proof. reflexivity. Qed.

(** What a handled exception prints, for the exceptions printed on one
    line. *)
Lemma handle_error_one_line exc s :
  is_plain_APIError exc = false ->
  let line :=
    match exc with
    | AuthError _ _ | NetworkError _ => "[red]" +:+ exn_str exc +:+ "[/red]"
    | _ => "[red]Unexpected error: " +:+ exn_str exc +:+ "[/red]"
    end in
  _handle_error exc s
  = if markup_ok line then (Raise (Exit 1), [Print line])
    else (Raise MarkupError, []).
Proof.
  intros Hp line. subst line. unfold _handle_error.
  destruct exc; try discriminate Hp; rewrite console_print_one;
    cbn [shown];
    match goal with |- context [markup_ok ?l] => destruct (markup_ok l) end;
    reflexivity.
Qed.

Lemma finish_raise s e n' after :
  finish s (Raise e, n') after
  = (match fst (_handle_error e s) with
     | Raise e' => Raised (Exc e')
     | Ok _ => Returned tt
     end, n', snd (_handle_error e s)).
Proof.
  unfold finish. destruct (_handle_error e s) as [[u|e'] out]; reflexivity.
Qed.

Lemma finish_network s call after :
  snd (fst (finish s call after)) = snd call.
Proof.
  destruct call as [[data|e] n']; cbn [finish snd fst].
  - destruct (after data). reflexivity.
  - destruct (_handle_error e s) as [[u|e'] out]; reflexivity.
Qed.

Lemma visibility_callback_lower v : visibility_callback v = lower v.
Proof. destruct v; reflexivity. Qed.

(** Every command that passes its checks is one call on a fresh client,
    followed by the handling of its result. *)
Lemma run_is_one_call s c n :
  accepted c = true ->
  exists call after,
    run (WithSettings s) c n
    = finish s (perform (__aenter__ (new s)) call n) after.
Proof.
  intros Hacc.
  destruct c; cbn [run];
    unfold list_events, create_event, show_event, delete_event, create_rsvp,
      list_rsvps, approve_rsvp, reject_rsvp, delete_rsvp, list_channels,
      create_channel, show_channel;
    cbn [_get_settings]; cbn [accepted] in Hacc; try rewrite Hacc;
    cbn [negb];
    first [ eexists (Get _ []), _; reflexivity
          | eexists (Post _ _), _; reflexivity
          | eexists (Delete _), _; reflexivity ].
Qed.

Lemma auth_line_ok :
  markup_ok ("[red]" +:+ AUTH_MESSAGE +:+ "[/red]") = true.
Proof. apply red_line_ok. reflexivity. Qed.

(** X5: when the remote side answers 401 or 403, every command prints the
    guidance message of the client, in red and alone (no status, no payload,
    also in JSON mode), and exits with status 1. *)
Theorem run_reports_auth_failure s c n response :
  accepted c = true ->
  (forall q, respond n q = Responded response) ->
  status_code response = 401%Z \/ status_code response = 403%Z ->
  fst (fst (run (WithSettings s) c n)) = Raised (Exc (Exit 1))
  /\ snd (run (WithSettings s) c n)
     = [Print ("[red]" +:+ AUTH_MESSAGE +:+ "[/red]")].
Proof.
  intros Hacc Hr Hs. destruct (run_is_one_call s c n Hacc) as (call & after & ->).
  pose proof (perform_result s call n _ Hr) as Hp.
  destruct (perform (__aenter__ (new s)) call n) as [res n'].
  cbn [fst] in Hp. subst res.
  assert (Hb : (status_code response =? 401)%Z
               || (status_code response =? 403)%Z = true).
  { destruct Hs as [-> | ->]; reflexivity. }
  rewrite Hb, finish_raise.
  rewrite (handle_error_one_line (AuthError _ _) s eq_refl).
  cbv zeta. cbn [exn_str]. rewrite auth_line_ok. split; reflexivity.
Qed.


(** X7: when [httpx] reports a request error, every command prints one red
    line naming the base URL and the cause, and exits with status 1; when
    [httpx] rejects the request with [InvalidURL], the line printed is
    [Unexpected error:] followed by the text of that exception, and does
    not name the base URL. Both hold provided [rich] renders the line, as
    it does whenever the texts put into it have no ["["]; otherwise
    [console.print] raises [MarkupError], nothing is printed and
    [typer.Exit] is not reached. *)
Theorem run_reports_network_failure s c n :
  accepted c = true ->
  (forall exc,
      (forall q, respond n q = Failed exc) ->
      let line :=
        "[red]"
        +:+ ("Network error contacting " +:+ Config.base_url s
             +:+ ": " +:+ exc)
        +:+ "[/red]" in
      (plain (Config.base_url s) = true -> plain exc = true ->
       markup_ok line = true)
      /\ if markup_ok line
         then fst (fst (run (WithSettings s) c n)) = Raised (Exc (Exit 1))
              /\ snd (run (WithSettings s) c n) = [Print line]
         else fst (fst (run (WithSettings s) c n)) = Raised (Exc MarkupError)
              /\ snd (run (WithSettings s) c n) = [])
  /\ (forall msg,
         (forall q, respond n q = Rejected msg) ->
         let line := "[red]Unexpected error: " +:+ msg +:+ "[/red]" in
         (plain msg = true -> markup_ok line = true)
         /\ if markup_ok line
            then fst (fst (run (WithSettings s) c n)) = Raised (Exc (Exit 1))
                 /\ snd (run (WithSettings s) c n) = [Print line]
            else fst (fst (run (WithSettings s) c n))
                 = Raised (Exc MarkupError)
                 /\ snd (run (WithSettings s) c n) = []).
Proof.
  intros Hacc. destruct (run_is_one_call s c n Hacc) as (call & after & ->).
  split.
  - intros exc Hr line. split.
    { intros Hb Hx. apply red_line_ok. now rewrite !plain_app, Hb, Hx. }
    pose proof (perform_result s call n _ Hr) as Hp.
    destruct (perform (__aenter__ (new s)) call n) as [res n'].
    cbn [fst] in Hp. subst res. rewrite finish_raise.
    rewrite (handle_error_one_line (NetworkError _) s eq_refl).
    cbv zeta. cbn [exn_str]. fold line.
    destruct (markup_ok line); split; reflexivity.
  - intros msg Hr line. split.
    { intros Hm. subst line.
      replace ("[red]Unexpected error: " +:+ msg +:+ "[/red]")
        with ("[red]" +:+ ("Unexpected error: " +:+ msg) +:+ "[/red]")
        by (rewrite !PyFacts.append_assoc; reflexivity).
      apply red_line_ok. now rewrite plain_app, Hm. }
    pose proof (perform_result s call n _ Hr) as Hp.
    destruct (perform (__aenter__ (new s)) call n) as [res n'].
    cbn [fst] in Hp. subst res. rewrite finish_raise.
    rewrite (handle_error_one_line (InvalidURL _) s eq_refl).
    cbv zeta. cbn [exn_str]. fold line.
    destruct (markup_ok line); split; reflexivity.
Qed.

(** X8: a command run without settings, or [channels create] with a
    visibility that is neither [public] nor [private] once put in lower
    case, raises [BadParameter] before anything is sent or printed. The
    visibility is compared in lower case, as the callback of the option
    returns it: [Public] passes the test. *)
Theorem run_rejects_before_sending ctx c n :
  ctx = Uninitialized \/ accepted c = false ->
  (exists msg, run ctx c n = (Raised (BadParameter msg), n, []))
  /\ (accepted c = false ->
      exists name visibility invite_code,
        c = ChannelsCreate name visibility invite_code
        /\ lower visibility <> "public"
        /\ lower visibility <> "private")
  /\ (forall name invite_code,
         accepted (ChannelsCreate name "Public" invite_code) = true).
Proof.
  intros H. split; [|split].
  - destruct H as [-> | Hacc].
    + destruct c; eexists; reflexivity.
    + destruct c; try discriminate Hacc.
      cbn in Hacc. cbn [run]. unfold create_channel.
      destruct ctx as [s|]; cbn [_get_settings]; [|eexists; reflexivity].
      rewrite Hacc. eexists. reflexivity.
  - intros Hacc. destruct c; try discriminate Hacc.
    cbn [accepted] in Hacc. rewrite visibility_callback_lower in Hacc.
    apply orb_false_iff in Hacc as [Hp Hq].
    apply String.eqb_neq in Hp, Hq.
    eexists _, _, _. split; [reflexivity|]. split; assumption.
  - reflexivity.
Qed.

Lemma perform_issued s c n :
  exists r,
    issued (snd (perform (__aenter__ (new s)) c n))
    = (issued n ++ (if rejected (respond n r) then [] else [r]))%list
    /\ req_base_url r = Config.base_url s
    /\ headers r !! "Authorization"
       = match Config.token s with
         | Some t => if String.eqb t "" then None else Some ("Bearer " +:+ t)
         | None => None
         end
    /\ match c with
       | Get p ps =>
           Http.method r = "GET" /\ req_path r = p /\ json r = None
           /\ params r = match ps with [] => None | _ => Some (PDict ps) end
       | Post p j =>
           Http.method r = "POST" /\ req_path r = p /\ json r = j
           /\ params r = None
       | Delete p =>
           Http.method r = "DELETE" /\ req_path r = p /\ json r = None
           /\ params r = None
       | Patch p j =>
           Http.method r = "PATCH" /\ req_path r = p /\ json r = j
           /\ params r = None
       end.
Proof.
  destruct (ClientMore.perform_request (__aenter__ (new s)) _ c n eq_refl)
    as (r & Hsent & Hresp & Hbase & Hcall).
  exists r. split; [|split; [exact Hbase|split; [|exact Hcall]]].
  - rewrite (ClientMore.issued_extend _ _ _ Hsent Hresp). cbn [List.filter].
    destruct (rejected (respond n r)); reflexivity.
  - destruct (ClientProps.aenter_authorization s) as (client & [= <-] & Hh).
    destruct (ClientProps.perform_sends (__aenter__ (new s)) _ c n eq_refl)
      as (r' & Hsent' & Hh').
    rewrite Hsent in Hsent'. apply app_inv_head in Hsent'.
    injection Hsent' as ->. rewrite Hh'. exact Hh.
Qed.

(** X9: a command that passes its checks makes at most one request: the
    request of its call, to the base URL of the settings, with the bearer
    header when the token is present and not empty and without it
    otherwise. [httpx] tries to send it, whatever the answer, unless it
    rejects the request, in which case nothing is sent. *)
Theorem run_sends_one_request s c n :
  accepted c = true ->
  exists r,
    issued (snd (fst (run (WithSettings s) c n)))
    = (issued n ++ (if rejected (respond n r) then [] else [r]))%list
    /\ req_base_url r = Config.base_url s
    /\ headers r !! "Authorization"
       = match Config.token s with
         | Some t => if String.eqb t "" then None else Some ("Bearer " +:+ t)
         | None => None
         end.
Proof.
  intros Hacc. destruct (run_is_one_call s c n Hacc) as (call & after & ->).
  rewrite finish_network.
  destruct (perform_issued s call n) as (r & Hissued & Hbase & Hauth & _).
  exists r. repeat split; assumption.
Qed.

(** X10: the request of [events list] is a [GET] without parameters: on the
    channel given, else on the default channel of the settings, when one of
    them is not empty; otherwise on the admin listing, whose path contains
    the token, when the token is not empty; otherwise on the public listing.
    It is the only request the command makes, and [httpx] tries to send it
    unless it rejects it. *)
Theorem list_events_target s channel public_only n :
  exists r,
    issued (snd (fst (list_events (WithSettings s) channel public_only n)))
    = (issued n ++ (if rejected (respond n r) then [] else [r]))%list
    /\ Http.method r = "GET"
    /\ params r = None
    /\ req_path r
       = match Config.first_nonempty [channel; Config.default_channel s] with
         | Some c => "/api/v1/channels/" +:+ c
         | None =>
             match Config.first_nonempty [Config.token s] with
             | Some t => "/admin/" +:+ t +:+ "/events"
             | None => "/api/v1/events"
             end
         end.
Proof.
  unfold list_events. cbn [_get_settings]. rewrite finish_network.
  match goal with
  | |- context [get ?self ?p [] n] =>
      destruct (perform_issued s (Get p []) n)
        as (r & Hissued & _ & _ & Hm & Hp & _ & Hps)
  end.
  exists r. split; [exact Hissued|]. split; [exact Hm|]. split; [exact Hps|].
  rewrite Hp. unfold or_opt.
  destruct channel as [[|a ch]|];
    destruct (Config.default_channel s) as [[|b dc]|];
    destruct (Config.token s) as [[|x t]|]; reflexivity.
Qed.

(** X29: [channels create] posts the visibility in lower case: when the
    visibility is [public] or [private] in any case, the request of the
    command is a [POST] on [/api/v1/channels] whose JSON body holds the name,
    the lower-cased visibility and the invite code ([null] when there is
    none); [httpx] tries to send it unless it rejects it. *)
Theorem create_channel_request s name visibility invite_code n :
  lower visibility = "public" \/ lower visibility = "private" ->
  exists r,
    issued (snd (fst (create_channel (WithSettings s) name visibility
                        invite_code n)))
    = (issued n ++ (if rejected (respond n r) then [] else [r]))%list
    /\ Http.method r = "POST"
    /\ req_path r = "/api/v1/channels"
    /\ json r
       = Some (PDict [("name", PStr name);
                      ("visibility", PStr (lower visibility));
                      ("invite_code", default PNone (PStr <$> invite_code))]).
Proof.
  intros Hv. unfold create_channel. cbn [_get_settings].
  rewrite visibility_callback_lower.
  replace (String.eqb (lower visibility) "public"
           || String.eqb (lower visibility) "private") with true
    by (destruct Hv as [-> | ->]; reflexivity).
  cbn [negb]. rewrite finish_network.
  match goal with
  | |- context [post ?self ?p ?j n] =>
      destruct (perform_issued s (Post p j) n)
        as (r & Hissued & _ & _ & Hm & Hp & Hj & _)
  end.
  exists r. split; [exact Hissued|]. split; [exact Hm|]. split; [exact Hp|].
  rewrite Hj. destruct invite_code; reflexivity.
Qed.

Lemma value_get_dict v key :
  is_dict v = true ->
  exists kv, v = PDict kv /\ value_get v key = Ok (dict_get kv key).
Proof. destruct v; try discriminate. eauto. Qed.

Lemma value_get_not_dict v key :
  is_dict v = false ->
  value_get v key = Raise (AttributeError "object has no attribute 'get'").
Proof. destruct v; try discriminate; reflexivity. Qed.

Lemma events_row_dict kv :
  exists row, events_row (PDict kv) = Ok row /\ length row = 7.
Proof. eexists. split; reflexivity. Qed.

Lemma events_rows_dicts events :
  Forall (fun e => is_dict e = true) events ->
  exists rows,
    events_rows events = Ok rows
    /\ length rows = length events
    /\ Forall (fun row => length row = 7) rows.
Proof.
  induction 1 as [|e events He _ (rows & Hrows & Hlen & Hall)].
  - exists []. repeat split. constructor.
  - destruct e; try discriminate He.
    destruct (events_row_dict entries) as (row & Hrow & Hrowlen).
    exists (row :: rows). cbn [events_rows]. rewrite Hrow, Hrows.
    split; [reflexivity|]. split; [cbn; now rewrite Hlen|].
    constructor; assumption.
Qed.

Lemma public_only_events_dicts events :
  Forall (fun e => is_dict e = true) events ->
  public_only_events events
  = Ok (List.filter
          (fun e => match e with
                    | PDict kv => negb (truthy (dict_get kv "is_private"))
                    | _ => false
                    end) events).
Proof.
  induction 1 as [|e events He _ IH]; [reflexivity|].
  destruct e; try discriminate He.
  cbn [public_only_events value_get mbind result_bind List.filter].
  rewrite IH. cbn [mbind result_bind].
  destruct (truthy (dict_get entries "is_private")); reflexivity.
Qed.

Lemma events_row_not_dict e :
  is_dict e = false ->
  events_row e = Raise (AttributeError "object has no attribute 'get'").
Proof. destruct e; try discriminate; reflexivity. Qed.

Lemma events_rows_not_dict events :
  Exists (fun e => is_dict e = false) events ->
  events_rows events
  = Raise (AttributeError "object has no attribute 'get'").
Proof.
  induction 1 as [e events He | e events _ IH]; cbn [events_rows].
  - rewrite (events_row_not_dict _ He). reflexivity.
  - rewrite IH. destruct (events_row e) as [row|err] eqn:Hrow; [reflexivity|].
    cbn. destruct e; cbn in Hrow; congruence.
Qed.

Lemma public_only_events_not_dict events :
  Exists (fun e => is_dict e = false) events ->
  public_only_events events
  = Raise (AttributeError "object has no attribute 'get'").
Proof.
  induction 1 as [e events He | e events _ IH]; cbn [public_only_events].
  - rewrite (value_get_not_dict _ _ He). reflexivity.
  - rewrite IH. destruct e; reflexivity.
Qed.

Lemma not_error_not_auth response :
  is_error response = false ->
  (status_code response =? 401)%Z || (status_code response =? 403)%Z = false.
Proof.
  intros He. unfold is_error in He. apply orb_false_iff.
  split; apply Z.eqb_neq; intros Hx; rewrite Hx in He; discriminate He.
Qed.

Lemma list_events_after s channel public_only n response :
  (forall q, respond n q = Responded response) ->
  is_error response = false ->
  Config.output_json s = false ->
  let events :=
    _extract_events_payload
      (default (PStr (text response)) (json_value response)) in
  (fst (fst (list_events (WithSettings s) channel public_only n)),
   snd (list_events (WithSettings s) channel public_only n))
  = match (if public_only then public_only_events events else Ok events) with
    | Raise e => (Raised (Exc e), [])
    | Ok [] => (Returned tt, [Print "[yellow]No events found.[/yellow]"])
    | Ok visible =>
        match _render_events_table visible with
        | Raise e => (Raised (Exc e), [])
        | Ok t => print_and_return [PrintTable t]
        end
    end.
Proof.
  intros Hr He Hj events. unfold list_events. cbn [_get_settings].
  match goal with
  | |- context [get ?self ?p [] n] =>
      pose proof (perform_result s (Get p []) n _ Hr) as Hp;
      cbn [perform] in Hp;
      destruct (get self p [] n) as [res n']
  end.
  cbn [fst] in Hp. subst res.
  rewrite (not_error_not_auth _ He), He. cbv zeta. cbn [finish]. rewrite Hj.
  fold events.
  destruct (if public_only then public_only_events events else Ok events)
    as [[|e visible]|err]; try reflexivity.
  destruct (_render_events_table (e :: visible)) as [t|err]; [|reflexivity].
  destruct (print_and_return [PrintTable t]). reflexivity.
Qed.

(** A table whose title and headers have no ["["] is rendered when its
    cells have none. *)
Lemma table_plain_ok t :
  forallb plain (title t :: columns t) = true ->
  forallb plain (concat (rows t)) = true ->
  table_ok t = true.
Proof.
  intros Hh Hc. unfold table_ok.
  change (title t :: columns t ++ concat (rows t))%list
    with ((title t :: columns t) ++ concat (rows t))%list.
  rewrite forallb_app. apply andb_true_iff. split.
  - rewrite forallb_forall in *. intros x Hx. apply plain_ok. now apply Hh.
  - rewrite forallb_forall in *. intros x Hx. apply plain_ok. now apply Hc.
Qed.

(** X11: in table mode, when the request succeeds and every event of the
    payload is an object, [events list] prints exactly one thing: the line
    [No events found.] when no event is left to show, and otherwise the
    table titled [Events] with one row of seven cells per event shown; with
    [--public-only] the events shown are those whose [is_private] is not
    true, in their order. The command returns normally, provided [rich]
    renders the table, as it does whenever no cell has a ["["]; otherwise
    [console.print] raises [MarkupError] and nothing is printed. *)
Theorem list_events_prints_table s channel (public_only : bool) n response :
  (forall q, respond n q = Responded response) ->
  is_error response = false ->
  Config.output_json s = false ->
  Forall (fun e => is_dict e = true)
    (_extract_events_payload
       (default (PStr (text response)) (json_value response))) ->
  let events :=
    _extract_events_payload
      (default (PStr (text response)) (json_value response)) in
  let visible :=
    if public_only
    then List.filter
           (fun e => match e with
                     | PDict kv => negb (truthy (dict_get kv "is_private"))
                     | _ => false
                     end) events
    else events in
  match visible with
  | [] =>
      fst (fst (list_events (WithSettings s) channel public_only n))
      = Returned tt
      /\ snd (list_events (WithSettings s) channel public_only n)
         = [Print "[yellow]No events found.[/yellow]"]
  | _ =>
      exists t,
        _render_events_table visible = Ok t
        /\ title t = "Events"
        /\ length (rows t) = length visible
        /\ Forall (fun row => length row = 7) (rows t)
        /\ (forallb plain (concat (rows t)) = true -> table_ok t = true)
        /\ if table_ok t
           then fst (fst (list_events (WithSettings s) channel public_only n))
                = Returned tt
                /\ snd (list_events (WithSettings s) channel public_only n)
                   = [PrintTable t]
           else fst (fst (list_events (WithSettings s) channel public_only n))
                = Raised (Exc MarkupError)
                /\ snd (list_events (WithSettings s) channel public_only n)
                   = []
  end.
Proof.
  intros Hr He Hj Hall events visible.
  pose proof (list_events_after s channel public_only n response Hr He Hj)
    as Hafter. cbv zeta in Hafter. fold events in Hafter, Hall.
  assert (Hvisible : (if public_only then public_only_events events
                      else Ok events) = Ok visible).
  { subst visible. destruct public_only; [|reflexivity].
    apply public_only_events_dicts. exact Hall. }
  assert (Hdicts : Forall (fun e => is_dict e = true) visible).
  { subst visible. destruct public_only; [|exact Hall].
    apply List.Forall_forall. intros e Hin. apply filter_In in Hin as [Hin _].
    rewrite List.Forall_forall in Hall. exact (Hall e Hin). }
  rewrite Hvisible in Hafter.
  destruct visible as [|e visible'].
  - injection Hafter as -> ->. split; reflexivity.
  - destruct (events_rows_dicts _ Hdicts) as (rws & Hrows & Hlen & Hcells).
    unfold _render_events_table in *. rewrite Hrows in *.
    cbn [mbind result_bind] in *. rewrite print_one in Hafter.
    cbn [shown] in Hafter.
    eexists. split; [reflexivity|]. cbn [title rows].
    split; [reflexivity|]. split; [exact Hlen|]. split; [exact Hcells|].
    split; [intros Hp; apply table_plain_ok; [reflexivity | exact Hp]|].
    match goal with |- context [table_ok ?t] => destruct (table_ok t) end;
      injection Hafter as -> ->; split; reflexivity.
Qed.

(** X12: in table mode, when the request succeeds and some event of the
    payload is not an object, [events list] raises [AttributeError], which
    no handler catches, and prints nothing. *)
Theorem list_events_fails_on_bad_event s channel public_only n response :
  (forall q, respond n q = Responded response) ->
  is_error response = false ->
  Config.output_json s = false ->
  Exists (fun e => is_dict e = false)
    (_extract_events_payload
       (default (PStr (text response)) (json_value response))) ->
  fst (fst (list_events (WithSettings s) channel public_only n))
  = Raised (Exc (AttributeError "object has no attribute 'get'"))
  /\ snd (list_events (WithSettings s) channel public_only n) = [].
Proof.
  intros Hr He Hj Hbad.
  pose proof (list_events_after s channel public_only n response Hr He Hj)
    as Hafter. cbv zeta in Hafter.
  destruct public_only.
  - rewrite (public_only_events_not_dict _ Hbad) in Hafter.
    injection Hafter as -> ->. split; reflexivity.
  - destruct (_extract_events_payload _) as [|e events] eqn:Hev.
    + inversion Hbad.
    + unfold _render_events_table in Hafter.
      rewrite (events_rows_not_dict _ Hbad) in Hafter.
      injection Hafter as -> ->. split; reflexivity.
Qed.

Lemma first_list_skips kv before rest :
  Forall (fun k => match dict_get kv k with PList _ => False | _ => True end)
    before ->
  first_list kv (before ++ rest)%list = first_list kv rest.
Proof.
  induction 1 as [|k before Hk _ IH]; [reflexivity|].
  cbn [app first_list]. destruct (dict_get kv k); try exact IH.
  destruct Hk.
Qed.

(** X13: from an object, [_extract_events_payload] takes the list under the
    first of the keys [events], [items], [results], [data] that holds a
    list: keys before it whose value is missing or not a list are passed
    over, and keys after it are not looked at, even when the list found is
    empty. *)
Theorem extract_events_takes_first_list kv before key after items :
  ["events"; "items"; "results"; "data"] = (before ++ key :: after)%list ->
  Forall (fun k => match dict_get kv k with PList _ => False | _ => True end)
    before ->
  dict_get kv key = PList items ->
  _extract_events_payload (PDict kv) = items.
Proof.
  intros Hkeys Hbefore Hkey. cbn [_extract_events_payload].
  rewrite Hkeys, (first_list_skips _ _ _ Hbefore). cbn [first_list].
  rewrite Hkey. reflexivity.
Qed.

(** X14: in table mode, when the request succeeds with a payload that is
    not an object, [events show] prints a detail table whose ten values are
    all empty if the payload is false (the empty text of a 204 answer, an
    empty list, [null]), and raises [AttributeError], uncaught and with
    nothing printed, if the payload is true. *)
Theorem show_event_non_object s event_id n response :
  (forall q, respond n q = Responded response) ->
  is_error response = false ->
  Config.output_json s = false ->
  is_dict (default (PStr (text response)) (json_value response)) = false ->
  if truthy (default (PStr (text response)) (json_value response))
  then
    fst (fst (show_event (WithSettings s) event_id n))
    = Raised (Exc (AttributeError "object has no attribute 'get'"))
    /\ snd (show_event (WithSettings s) event_id n) = []
  else
    fst (fst (show_event (WithSettings s) event_id n)) = Returned tt
    /\ snd (show_event (WithSettings s) event_id n)
       = [PrintTable
            {| title := "Event";
               columns := [];
               rows := [["id"; ""]; ["title"; ""]; ["description"; ""];
                        ["start_time"; ""]; ["end_time"; ""];
                        ["location"; ""]; ["channel"; ""];
                        ["is_private"; ""];
                        ["admin_approval_required"; ""];
                        ["public_link"; ""]] |}].
Proof.
  intros Hr He Hj Hnd. unfold show_event. cbn [_get_settings].
  match goal with
  | |- context [get ?self ?p [] n] =>
      pose proof (perform_result s (Get p []) n _ Hr) as Hp;
      cbn [perform] in Hp;
      destruct (get self p [] n) as [res n']
  end.
  cbn [fst] in Hp. subst res.
  rewrite (not_error_not_auth _ He), He. cbv zeta. cbn [finish]. rewrite Hj.
  destruct (default (PStr (text response)) (json_value response)) as
    [ | b | z | nz r | st r | str | items | kv ] eqn:Hd;
    try discriminate Hnd; unfold por;
    match goal with
    | |- context [truthy ?v] => destruct (truthy v) eqn:Ht
    end; split; reflexivity.
Qed.

(** Replaces the call of the command in the goal by its result, when the
    remote side answers [response] to everything. *)
Ltac answer_call s n Hr He :=
  let Hp := fresh "Hp" in
  let res := fresh "res" in
  let n' := fresh "n'" in
  lazymatch goal with
  | |- context [get ?self ?p ?ps n] =>
      pose proof (perform_result s (Get p ps) n _ Hr) as Hp;
      cbn [perform] in Hp; destruct (get self p ps n) as [res n']
  | |- context [post ?self ?p ?j n] =>
      pose proof (perform_result s (Post p j) n _ Hr) as Hp;
      cbn [perform] in Hp; destruct (post self p j n) as [res n']
  | |- context [Client.delete ?self ?p n] =>
      pose proof (perform_result s (Delete p) n _ Hr) as Hp;
      cbn [perform] in Hp; destruct (Client.delete self p n) as [res n']
  end;
  cbn [fst] in Hp; subst res;
  rewrite (not_error_not_auth _ He), He; cbv zeta; cbn [finish].

Ltac unfold_command :=
  cbn [run];
  unfold list_events, create_event, show_event, delete_event, create_rsvp,
    list_rsvps, approve_rsvp, reject_rsvp, delete_rsvp, list_channels,
    create_channel, show_channel, print_listing, print_done;
  cbn [_get_settings].

(** X26: in JSON mode, when the request succeeds, every command returns
    normally and prints exactly the payload received, whatever its shape:
    the parsed body, or the body text when it does not parse. [events show]
    prints the value under [event] when the payload is an object that has
    that key. *)
Theorem run_json_mode s c n response :
  accepted c = true ->
  (forall q, respond n q = Responded response) ->
  is_error response = false ->
  Config.output_json s = true ->
  let data := default (PStr (text response)) (json_value response) in
  fst (fst (run (WithSettings s) c n)) = Returned tt
  /\ snd (run (WithSettings s) c n)
     = [PrintJson
          match c, data with
          | EventsShow _, PDict kv => default data (assoc "event" kv)
          | _, _ => data
          end].
Proof.
  intros Hacc Hr He Hj data.
  destruct c; unfold_command; cbn [accepted] in Hacc; try rewrite Hacc;
    cbn [negb]; answer_call s n Hr He; rewrite Hj; fold data;
    split; reflexivity.
Qed.

(** X27: in table mode, when the request succeeds, the commands that only
    confirm ([events delete], [rsvps approve], [rsvps reject] and
    [rsvps delete]) print nothing with [--quiet] and otherwise one green
    line naming the identifier, whatever the payload. They return normally,
    provided [rich] renders the line, as it does whenever the identifier
    has no ["["]; otherwise [console.print] raises [MarkupError] and
    nothing is printed. *)
Theorem run_confirms s c n response :
  (forall q, respond n q = Responded response) ->
  is_error response = false ->
  Config.output_json s = false ->
  let confirms (id line : string) :=
    (plain id = true -> markup_ok line = true)
    /\ run (WithSettings s) c n
       = (if Config.quiet s || markup_ok line then Returned tt
          else Raised (Exc MarkupError),
          snd (fst (run (WithSettings s) c n)),
          if negb (Config.quiet s) && markup_ok line then [Print line]
          else []) in
  match c with
  | EventsDelete id =>
      confirms id ("[green]Deleted event " +:+ id +:+ ".[/green]")
  | RsvpsApprove id =>
      confirms id ("[green]RSVP " +:+ id +:+ " approved.[/green]")
  | RsvpsReject id _ =>
      confirms id ("[green]RSVP " +:+ id +:+ " rejected.[/green]")
  | RsvpsDelete id =>
      confirms id ("[green]RSVP " +:+ id +:+ " deleted.[/green]")
  | _ => True
  end.
Proof.
  intros Hr He Hj confirms. subst confirms.
  destruct c; try exact I; cbv beta; (split; [intros Hid|]).
  1: replace ("[green]Deleted event " +:+ event_id +:+ ".[/green]")
       with ("[green]" +:+ ("Deleted event " +:+ event_id +:+ ".")
             +:+ "[/green]")
       by (rewrite !PyFacts.append_assoc; reflexivity).
  3: replace ("[green]RSVP " +:+ rsvp_id +:+ " approved.[/green]")
       with ("[green]" +:+ ("RSVP " +:+ rsvp_id +:+ " approved.")
             +:+ "[/green]")
       by (rewrite !PyFacts.append_assoc; reflexivity).
  5: replace ("[green]RSVP " +:+ rsvp_id +:+ " rejected.[/green]")
       with ("[green]" +:+ ("RSVP " +:+ rsvp_id +:+ " rejected.")
             +:+ "[/green]")
       by (rewrite !PyFacts.append_assoc; reflexivity).
  7: replace ("[green]RSVP " +:+ rsvp_id +:+ " deleted.[/green]")
       with ("[green]" +:+ ("RSVP " +:+ rsvp_id +:+ " deleted.")
             +:+ "[/green]")
       by (rewrite !PyFacts.append_assoc; reflexivity).
  1,3,5,7: apply green_line_ok; now rewrite !plain_app, Hid.
  all: unfold_command; answer_call s n Hr He; rewrite Hj;
    destruct (Config.quiet s); cbn [negb orb andb]; [reflexivity|];
    rewrite print_one; cbn [shown];
    match goal with |- context [markup_ok ?l] => destruct (markup_ok l) end;
    reflexivity.
Qed.

Lemma cells_dict kv keys :
  exists row, cells (PDict kv) keys = Ok row /\ length row = length keys.
Proof.
  induction keys as [|key keys (row & Hrow & Hlen)].
  - exists []. split; reflexivity.
  - eexists. cbn [cells value_get_default mbind result_bind]. rewrite Hrow.
    split; [reflexivity|]. cbn. now rewrite Hlen.
Qed.

Lemma table_rows_dicts items keys :
  Forall (fun e => is_dict e = true) items ->
  exists rows,
    table_rows items keys = Ok rows
    /\ length rows = length items
    /\ Forall (fun row => length row = length keys) rows.
Proof.
  induction 1 as [|e items He _ (rows & Hrows & Hlen & Hall)].
  - exists []. repeat split. constructor.
  - destruct e; try discriminate He.
    destruct (cells_dict entries keys) as (row & Hrow & Hrowlen).
    exists (row :: rows). cbn [table_rows]. rewrite Hrow, Hrows.
    split; [reflexivity|]. split; [cbn; now rewrite Hlen|].
    constructor; assumption.
Qed.

(** X28: in table mode, when the request succeeds, [rsvps list] and
    [channels list] print one table with one row per item of the payload
    when it is a list of objects, and with a single row when the payload is
    one object; every row has one cell per column (five for RSVPs, three for
    channels). An empty list gives a table without rows. The command
    returns normally, provided [rich] renders the table, as it does
    whenever no cell has a ["["]; otherwise [console.print] raises
    [MarkupError] and nothing is printed. *)
Theorem run_lists_rows s c (width : nat) n response :
  (exists event_id, c = RsvpsList event_id /\ width = 5)
  \/ (c = ChannelsList /\ width = 3) ->
  (forall q, respond n q = Responded response) ->
  is_error response = false ->
  Config.output_json s = false ->
  Forall (fun e => is_dict e = true)
    (as_list (default (PStr (text response)) (json_value response))) ->
  let items := as_list (default (PStr (text response)) (json_value response)) in
  exists t,
    match c with
    | ChannelsList => _render_channels_table items
    | _ => _render_rsvps_table items
    end = Ok t
    /\ length (columns t) = width
    /\ length (rows t) = length items
    /\ Forall (fun row => length row = width) (rows t)
    /\ (forallb plain (concat (rows t)) = true -> table_ok t = true)
    /\ if table_ok t
       then fst (fst (run (WithSettings s) c n)) = Returned tt
            /\ snd (run (WithSettings s) c n) = [PrintTable t]
       else fst (fst (run (WithSettings s) c n)) = Raised (Exc MarkupError)
            /\ snd (run (WithSettings s) c n) = [].
Proof.
  intros Hc Hr He Hj Hall items.
  destruct Hc as [(event_id & -> & ->) | [-> ->]]; unfold_command;
    answer_call s n Hr He; rewrite Hj; fold items;
    unfold _render_rsvps_table, _render_channels_table;
    match goal with
    | |- context [table_rows ?l ?keys] =>
        destruct (table_rows_dicts l keys Hall)
          as (rws & Hrows & Hlen & Hcells)
    end; rewrite Hrows; cbn [mbind result_bind];
    eexists; (split; [reflexivity|]); cbn [columns rows];
    (split; [reflexivity|]); (split; [exact Hlen|]);
    (split; [exact Hcells|]);
    (split; [intros Hp; apply table_plain_ok; [reflexivity | exact Hp]|]);
    rewrite print_one; cbn [shown];
    match goal with |- context [table_ok ?t] => destruct (table_ok t) end;
    split; reflexivity.
Qed.

End Handlers.

Lemma run_reports_auth_failure_witness :
  fst (fst (run (WithSettings (settings_with_token (Some "stale")))
              (EventsDelete "7") (always (Responded forbidden_html))))
  = Raised (Exc (Exit 1))
  /\ snd (run (WithSettings (settings_with_token (Some "stale")))
            (EventsDelete "7") (always (Responded forbidden_html)))
     = [Print ("[red]" +:+ AUTH_MESSAGE +:+ "[/red]")].
Proof.
  apply (run_reports_auth_failure (settings_with_token (Some "stale"))
           (EventsDelete "7") (always (Responded forbidden_html))
           forbidden_html).
  - reflexivity.
  - reflexivity.
  - right. reflexivity.
Defined.


Lemma run_reports_network_failure_witness :
  (fst (fst (run (WithSettings (settings_with_token None))
               (EventsList None false) (always (Failed "timed out"))))
   = Raised (Exc (Exit 1))
   /\ snd (run (WithSettings (settings_with_token None))
             (EventsList None false) (always (Failed "timed out")))
      = [Print "[red]Network error contacting http://localhost:8000: timed out[/red]"])
  /\ (fst (fst (run (WithSettings (settings_with_token None))
                  (EventsShow control_path) (always (Rejected invalid_url))))
      = Raised (Exc (Exit 1))
      /\ snd (run (WithSettings (settings_with_token None))
                (EventsShow control_path) (always (Rejected invalid_url)))
         = [Print "[red]Unexpected error: Invalid non-printable ASCII character in URL[/red]"]).
Proof.
  split.
  - refine (proj2 (proj1 (run_reports_network_failure
                            (settings_with_token None) (EventsList None false)
                            (always (Failed "timed out")) _)
                     "timed out" _)); reflexivity.
  - refine (proj2 (proj2 (run_reports_network_failure
                            (settings_with_token None)
                            (EventsShow control_path)
                            (always (Rejected invalid_url)) _)
                     invalid_url _)); reflexivity.
Defined.

Lemma run_rejects_before_sending_witness :
  (exists msg,
      run (WithSettings (settings_with_token None))
        (ChannelsCreate "friends" "secret" None) (always (Failed "unused"))
      = (Raised (BadParameter msg), always (Failed "unused"), []))
  /\ accepted (ChannelsCreate "friends" "Public" None) = true.
Proof.
  destruct (run_rejects_before_sending
              (WithSettings (settings_with_token None))
              (ChannelsCreate "friends" "secret" None)
              (always (Failed "unused"))) as (Hrun & _ & Hpublic).
  - right. reflexivity.
  - split; [exact Hrun | exact (Hpublic "friends" None)].
Defined.

Lemma run_sends_one_request_witness :
  exists r,
    issued (snd (fst (run (WithSettings (settings_with_token (Some "abc")))
                        (EventsDelete "7") (always (Responded no_content)))))
    = ([] ++ (if rejected (Responded no_content) then [] else [r]))%list
    /\ req_base_url r = "http://localhost:8000"
    /\ headers r !! "Authorization" = Some "Bearer abc".
Proof.
  apply (run_sends_one_request (settings_with_token (Some "abc"))
           (EventsDelete "7") (always (Responded no_content))).
  reflexivity.
Defined.

Lemma create_channel_request_witness :
  exists r,
    issued (snd (fst (create_channel (WithSettings (settings_with_token None))
                        "friends" "Public" None
                        (always (Responded one_channel)))))
    = ([] ++ (if rejected (Responded one_channel) then [] else [r]))%list
    /\ Http.method r = "POST"
    /\ req_path r = "/api/v1/channels"
    /\ json r
       = Some (PDict [("name", PStr "friends");
                      ("visibility", PStr "public");
                      ("invite_code", PNone)]).
Proof.
  apply (create_channel_request (settings_with_token None) "friends" "Public"
           None (always (Responded one_channel))).
  left. reflexivity.
Defined.

Lemma list_events_prints_table_witness :
  exists t,
    _render_events_table [PDict [("id", PInt 2)]] = Ok t
    /\ title t = "Events"
    /\ length (rows t) = 1
    /\ Forall (fun row => length row = 7) (rows t)
    /\ (forallb plain (concat (rows t)) = true -> table_ok t = true)
    /\ if table_ok t
       then fst (fst (list_events (WithSettings (settings_with_token None))
                        None true (always (Responded two_events))))
            = Returned tt
            /\ snd (list_events (WithSettings (settings_with_token None))
                      None true (always (Responded two_events)))
               = [PrintTable t]
       else fst (fst (list_events (WithSettings (settings_with_token None))
                        None true (always (Responded two_events))))
            = Raised (Exc MarkupError)
            /\ snd (list_events (WithSettings (settings_with_token None))
                      None true (always (Responded two_events)))
               = [].
Proof.
  refine (list_events_prints_table (settings_with_token None) None true
            (always (Responded two_events)) two_events _ _ _ _).
  - reflexivity.
  - reflexivity.
  - reflexivity.
  - repeat constructor.
Defined.

Lemma list_events_fails_on_bad_event_witness :
  fst (fst (list_events (WithSettings (settings_with_token None)) None false
              (always (Responded
                         Answers.number_listing))))
  = Raised (Exc (AttributeError "object has no attribute 'get'"))
  /\ snd (list_events (WithSettings (settings_with_token None)) None false
            (always (Responded
                       Answers.number_listing)))
     = [].
Proof.
  refine (list_events_fails_on_bad_event (settings_with_token None) None false
            (always (Responded Answers.number_listing))
            Answers.number_listing _ _ _ _).
  - reflexivity.
  - reflexivity.
  - reflexivity.
  - constructor. reflexivity.
Defined.

Lemma extract_events_takes_first_list_witness :
  _extract_events_payload
    (PDict [("data", PList [PInt 3]); ("events", PStr "none");
            ("results", PList [])])
  = [].
Proof.
  refine (extract_events_takes_first_list
            [("data", PList [PInt 3]); ("events", PStr "none");
             ("results", PList [])]
            ["events"; "items"] "results" ["data"] [] _ _ _).
  - reflexivity.
  - repeat constructor.
  - reflexivity.
Defined.

Lemma show_event_non_object_witness :
  fst (fst (show_event (WithSettings (settings_with_token None)) "7"
              (always (Responded no_content)))) = Returned tt
  /\ snd (show_event (WithSettings (settings_with_token None)) "7"
            (always (Responded no_content)))
     = [PrintTable
          {| title := "Event";
             columns := [];
             rows := [["id"; ""]; ["title"; ""]; ["description"; ""];
                      ["start_time"; ""]; ["end_time"; ""];
                      ["location"; ""]; ["channel"; ""];
                      ["is_private"; ""];
                      ["admin_approval_required"; ""];
                      ["public_link"; ""]] |}].
Proof.
  refine (show_event_non_object (settings_with_token None) "7"
            (always (Responded no_content)) no_content _ _ _ _);
    reflexivity.
Defined.

Lemma run_json_mode_witness :
  fst (fst (run (WithSettings
                   {| Config.base_url := "http://localhost:8000";
                      Config.token := None;
                      Config.default_channel := None;
                      Config.output_json := true;
                      Config.quiet := false |})
              (RsvpsDelete "9") (always (Responded no_content))))
  = Returned tt
  /\ snd (run (WithSettings
                 {| Config.base_url := "http://localhost:8000";
                    Config.token := None;
                    Config.default_channel := None;
                    Config.output_json := true;
                    Config.quiet := false |})
            (RsvpsDelete "9") (always (Responded no_content)))
     = [PrintJson (PStr "")].
Proof.
  refine (run_json_mode _ (RsvpsDelete "9") (always (Responded no_content))
            no_content _ _ _ _); reflexivity.
Defined.

Lemma run_confirms_witness :
  run (WithSettings (settings_with_token None)) (RsvpsApprove "9")
    (always (Responded no_content))
  = (Returned tt,
     snd (fst (run (WithSettings (settings_with_token None))
                 (RsvpsApprove "9") (always (Responded no_content)))),
     [Print "[green]RSVP 9 approved.[/green]"])
  /\ run (WithSettings (settings_with_token None)) (RsvpsApprove "[/b]")
       (always (Responded no_content))
     = (Raised (Exc MarkupError),
        snd (fst (run (WithSettings (settings_with_token None))
                    (RsvpsApprove "[/b]") (always (Responded no_content)))),
        []).
Proof.
  split.
  - refine (proj2 (run_confirms (settings_with_token None) (RsvpsApprove "9")
                     (always (Responded no_content)) no_content _ _ _));
      reflexivity.
  - refine (proj2 (run_confirms (settings_with_token None)
                     (RsvpsApprove "[/b]")
                     (always (Responded no_content)) no_content _ _ _));
      reflexivity.
Defined.

Lemma run_lists_rows_witness :
  exists t,
    _render_channels_table [PDict [("name", PStr "friends")]] = Ok t
    /\ length (columns t) = 3
    /\ length (rows t) = 1
    /\ Forall (fun row => length row = 3) (rows t)
    /\ (forallb plain (concat (rows t)) = true -> table_ok t = true)
    /\ if table_ok t
       then fst (fst (run (WithSettings (settings_with_token None))
                        ChannelsList (always (Responded one_channel))))
            = Returned tt
            /\ snd (run (WithSettings (settings_with_token None)) ChannelsList
                      (always (Responded one_channel)))
               = [PrintTable t]
       else fst (fst (run (WithSettings (settings_with_token None))
                        ChannelsList (always (Responded one_channel))))
            = Raised (Exc MarkupError)
            /\ snd (run (WithSettings (settings_with_token None)) ChannelsList
                      (always (Responded one_channel)))
               = [].
Proof.
  refine (run_lists_rows (settings_with_token None) ChannelsList 3
            (always (Responded one_channel)) one_channel _ _ _ _ _).
  - right. split; reflexivity.
  - reflexivity.
  - reflexivity.
  - reflexivity.
  - repeat constructor.
Defined.

End CommandsProps.
(** ** The [invite] client: commands *)

Module InviteMore.
Import Py Exn Fs Http Invite InviteCommands Samples.

Lemma filter_is_dict events :
  Forall (fun e => is_dict e = true) (List.filter is_dict events).
Proof.
  apply List.Forall_forall. intros e Hin.
  apply filter_In in Hin as [_ He]. exact He.
Qed.

(** X15: [_collect_events_from_payload] returns the objects, in their
    order, of one list of the payload: the list under [events] when the
    payload is an object that holds a list there; else the list under
    [events] of its [channel] object; and nothing when there is no such
    list. Every event it returns is an object. *)
Theorem collect_events_are_objects data :
  Forall (fun e => is_dict e = true) (_collect_events_from_payload data)
  /\ (forall kv events,
         data = PDict kv ->
         dict_get kv "events" = PList events ->
         _collect_events_from_payload data = List.filter is_dict events)
  /\ (forall kv channel events,
         data = PDict kv ->
         (forall l, dict_get kv "events" <> PList l) ->
         dict_get kv "channel" = PDict channel ->
         dict_get channel "events" = PList events ->
         _collect_events_from_payload data = List.filter is_dict events)
  /\ ((forall kv,
          data = PDict kv ->
          (forall l, dict_get kv "events" <> PList l)
          /\ (forall channel l,
                 dict_get kv "channel" = PDict channel ->
                 dict_get channel "events" <> PList l)) ->
      _collect_events_from_payload data = []).
Proof.
  split; [|split; [|split]].
  - destruct data as [ | | | | | | |kv]; try constructor.
    cbn [_collect_events_from_payload].
    destruct (dict_get kv "events"); try apply filter_is_dict;
      destruct (dict_get kv "channel") as [ | | | | | | |ch];
      try constructor;
      destruct (dict_get ch "events"); try constructor; apply filter_is_dict.
  - intros kv events -> Hev. cbn [_collect_events_from_payload].
    now rewrite Hev.
  - intros kv channel events -> Hno Hch Hev. cbn [_collect_events_from_payload].
    destruct (dict_get kv "events") as [ | | | | | |top| ] eqn:Htop;
      try (rewrite Hch, Hev; reflexivity).
    destruct (Hno top eq_refl).
  - intros Hnone. destruct data as [ | | | | | | |kv]; try reflexivity.
    destruct (Hnone kv eq_refl) as [Hno Hch].
    cbn [_collect_events_from_payload].
    destruct (dict_get kv "events") as [ | | | | | |top| ] eqn:Htop;
      try (destruct (Hno top eq_refl));
      destruct (dict_get kv "channel") as [ | | | | | | |ch] eqn:Hc;
      try reflexivity;
      destruct (dict_get ch "events") as [ | | | | | |nested| ] eqn:Hn;
      try reflexivity;
      destruct (Hch ch nested eq_refl Hn).
Qed.

Lemma collect_events_are_objects_witness :
  _collect_events_from_payload Answers.events_twice
  = [PDict [("id", PInt 1)]; PDict [("id", PInt 2)]]
  /\ _collect_events_from_payload Answers.events_in_channel
     = [PDict [("id", PInt 3)]].
Proof.
  split.
  - exact (proj1 (proj2 (collect_events_are_objects Answers.events_twice))
             [("channel", PDict [("events", PList [PDict [("id", PInt 3)]])]);
              ("events", PList [PDict [("id", PInt 1)]; PInt 5;
                                PDict [("id", PInt 2)]])]
             [PDict [("id", PInt 1)]; PInt 5; PDict [("id", PInt 2)]]
             eq_refl eq_refl).
  - refine (proj1 (proj2 (proj2 (collect_events_are_objects
                                   Answers.events_in_channel)))
              [("channel", PDict [("events", PList [PDict [("id", PInt 3)]])]);
               ("events", PStr "none")]
              [("events", PList [PDict [("id", PInt 3)]])]
              [PDict [("id", PInt 3)]] eq_refl _ eq_refl eq_refl).
    intros l. discriminate.
Defined.

Lemma resolve_admin_token_cases ctx admin_token :
  _resolve_admin_token ctx admin_token
  = match Config.first_nonempty [admin_token; snd ctx] with
    | Some t => (Ok t, [])
    | None =>
        (Raise (Exit 1),
         [Secho "An admin token is required. Use --admin-token or set INVITE_ADMIN_TOKEN."
                "red"])
    end.
Proof.
  unfold _resolve_admin_token, or_opt.
  destruct admin_token as [[|a t]|]; destruct (snd ctx) as [[|b u]|];
    reflexivity.
Qed.

(** X16: [_resolve_admin_token] returns the token given to the command
    when it is not empty, else the token stored by [main] when that one is
    not empty; with neither it prints the request for a token in red and
    exits with status 1. The token it returns is never empty. *)
Theorem resolve_admin_token_result ctx admin_token :
  _resolve_admin_token ctx admin_token
  = match Config.first_nonempty [admin_token; snd ctx] with
    | Some t => (Ok t, [])
    | None =>
        (Raise (Exit 1),
         [Secho "An admin token is required. Use --admin-token or set INVITE_ADMIN_TOKEN."
                "red"])
    end
  /\ match fst (_resolve_admin_token ctx admin_token) with
     | Ok t => String.eqb t "" = false
     | Raise e => e = Exit 1
     end.
Proof.
  split; [apply resolve_admin_token_cases|].
  rewrite resolve_admin_token_cases.
  destruct admin_token as [[|a t]|]; destruct (snd ctx) as [[|b u]|];
    reflexivity.
Qed.

Lemma invite_request_issued base method path headers json_payload echo n :
  let r :=
    {| Http.method := method;
       req_base_url := base;
       req_path := path;
       Http.headers := match headers with Some h => h | None => ∅ end;
       params := None;
       json := json_payload |} in
  issued (snd (fst (_request base method path headers json_payload echo n)))
  = (issued n ++ (if rejected (respond n r) then [] else [r]))%list.
Proof.
  intros r.
  assert (Hn : sent (snd (fst (_request base method path headers json_payload
                                 echo n))) = (sent n ++ [r])%list
               /\ respond (snd (fst (_request base method path headers
                                       json_payload echo n))) = respond n).
  { unfold _request, send. fold r.
    destruct (respond n r) as [exc|resp|msg];
      [split; reflexivity| |split; reflexivity].
    destruct (status_code resp =? 204)%Z; [split; reflexivity|].
    destruct (is_success resp); split; reflexivity. }
  destruct Hn as [Hsent Hresp].
  rewrite (ClientMore.issued_extend _ _ _ Hsent Hresp). cbn [List.filter].
  destruct (rejected (respond n r)); reflexivity.
Qed.

(** X17: the command [rsvps] never sends a request without a token:
    without a non-empty token it exits with status 1 and the network is
    left as it was; with one, the only request it makes is a [GET] on the
    RSVPs of the event, at the base URL of the context, that carries
    [Authorization: Bearer <token>]; [httpx] tries to send it unless it
    rejects it. *)
Theorem list_rsvps_sends_token ctx event_id admin_token n :
  match Config.first_nonempty [admin_token; snd ctx] with
  | None =>
      fst (list_rsvps ctx event_id admin_token n) = (Raise (Exit 1), n)
  | Some t =>
      String.eqb t "" = false
      /\ exists r,
           issued (snd (fst (list_rsvps ctx event_id admin_token n)))
           = (issued n ++ (if rejected (respond n r) then [] else [r]))%list
           /\ Http.method r = "GET"
           /\ req_base_url r = fst ctx
           /\ req_path r = "/api/v1/events/" +:+ event_id +:+ "/rsvps"
           /\ Http.headers r !! "Authorization" = Some ("Bearer " +:+ t)
           /\ json r = None
  end.
Proof.
  unfold list_rsvps.
  rewrite resolve_admin_token_cases.
  destruct (Config.first_nonempty [admin_token; snd ctx]) as [t|] eqn:Hf;
    [|reflexivity].
  split.
  - destruct admin_token as [[|a u]|]; destruct (snd ctx) as [[|b v]|];
      cbn in Hf; try discriminate Hf; injection Hf as <-; reflexivity.
  - pose proof (invite_request_issued (fst ctx) "GET"
                  ("/api/v1/events/" +:+ event_id +:+ "/rsvps")
                  (Some (<["Authorization" := "Bearer " +:+ t]> ∅)) None true n)
      as Hs. cbv zeta in Hs.
    destruct (_request _ _ _ _ _ _ n) as [[r n'] out].
    eexists. split; [exact Hs|]. repeat split.
Qed.



Lemma main_resolved base_url admin_token f :
  main base_url admin_token f
  = (rstrip "/" (default "https://openrsvp.kaotic.cc"
                   (Config.first_nonempty
                      [base_url; _load_config_base_url f])),
     admin_token).
Proof.
  unfold main, _normalize_base_url, DEFAULT_BASE_URL.
  rewrite ConfigCliProps.set_base_url_choice. reflexivity.
Qed.



Section StoredBaseUrl.
Variable toml_loads : string -> result pyval.

(** X20: after [configure] has stored a base URL, a later run of [main]
    without [--base-url] uses the stored value, normalized, and a run with a
    non-empty [--base-url] uses that option instead; this holds on every
    disk where the file can be written, provided the TOML library reads the
    line written as the entry it spells and the normalized value is not
    empty. *)
Theorem configure_then_main home s base_url admin_token :
  (forall q : path, q `prefix_of` parent (CONFIG_PATH home) -> q <> [] ->
             nodes s !! q = Some Dir
             \/ (nodes s !! q = None /\ refused s !! q = None)) ->
  nodes s !! CONFIG_PATH home <> Some Dir ->
  refused s !! CONFIG_PATH home = None ->
  toml_loads (ConfigCli.config_text (rstrip "/" base_url))
  = Ok (PDict [("base_url", PStr (rstrip "/" base_url))]) ->
  rstrip "/" base_url <> "" ->
  exists s' out,
    configure home s base_url = (Ok tt, s', out)
    /\ main None admin_token (read_file toml_loads s' (CONFIG_PATH home))
       = (rstrip "/" base_url, admin_token)
    /\ forall option,
         option <> "" ->
         main (Some option) admin_token
           (read_file toml_loads s' (CONFIG_PATH home))
         = (rstrip "/" option, admin_token).
Proof.
  intros Hclear Hnodir Hfree Hloads Hne.
  destruct (InviteProps.configure_succeeds home s base_url Hclear Hnodir Hfree)
    as (s' & out & Hconf).
  destruct (InviteProps.configure_written _ _ _ _ _ Hconf) as [Hfile _].
  exists s', out. split; [exact Hconf|].
  assert (Hread : _load_config_base_url
                    (read_file toml_loads s' (CONFIG_PATH home))
                  = Some (rstrip "/" base_url)).
  { unfold read_file. rewrite Hfile, Hloads. cbn.
    apply String.eqb_neq in Hne. rewrite Hne. reflexivity. }
  split.
  - rewrite main_resolved, Hread. cbn [Config.first_nonempty].
    apply String.eqb_neq in Hne. rewrite Hne. cbn.
    now rewrite PyFacts.rstrip_idempotent.
  - intros option Hopt.
    rewrite main_resolved. cbn [Config.first_nonempty]. apply String.eqb_neq in Hopt.
    rewrite Hopt. reflexivity.
Qed.

End StoredBaseUrl.

Lemma configure_then_main_witness :
  exists s' out,
    configure Samples.home empty_disk "https://example.com/" = (Ok tt, s', out)
    /\ main None None
         (read_file TomlSample.one_line_toml s' (CONFIG_PATH Samples.home))
       = ("https://example.com", None)
    /\ forall option,
         option <> "" ->
         main (Some option) None
           (read_file TomlSample.one_line_toml s' (CONFIG_PATH Samples.home))
         = (rstrip "/" option, None).
Proof.
  refine (configure_then_main TomlSample.one_line_toml Samples.home empty_disk
            "https://example.com/" None _ _ _ _ _).
  - intros q _ _. right. split; apply lookup_empty.
  - discriminate.
  - reflexivity.
  - vm_compute. reflexivity.
  - vm_compute. discriminate.
Defined.

(** X21: [_normalize_base_url] removes trailing ["/"] and nothing else: its
    argument is its result followed by ["/"] characters only, its result
    does not end with ["/"], and normalizing twice is normalizing once. *)
Theorem normalize_base_url_strips_slashes base_url :
  (exists tail,
      base_url = _normalize_base_url base_url +:+ tail
      /\ forall c, mem_char c tail = true -> c = "/"%char)
  /\ (forall c, last_char (_normalize_base_url base_url) = Some c ->
                c <> "/"%char)
  /\ _normalize_base_url (_normalize_base_url base_url)
     = _normalize_base_url base_url.
Proof.
  unfold _normalize_base_url. split; [|split].
  - destruct (PyFacts.rstrip_decompose "/" base_url) as (tail & Heq & Htail).
    exists tail. split; [exact Heq|]. intros c Hc. apply Htail in Hc.
    cbn in Hc. rewrite orb_false_r in Hc. now apply Ascii.eqb_eq in Hc.
  - intros c Hlast ->. apply PyFacts.rstrip_last in Hlast. discriminate Hlast.
  - apply PyFacts.rstrip_idempotent.
Qed.


Lemma normalize_base_url_strips_slashes_witness :
  _normalize_base_url (_normalize_base_url "https://example.com//")
  = _normalize_base_url "https://example.com//".
Proof. apply (normalize_base_url_strips_slashes "https://example.com//"). Defined.

(** X22: [create-event] compares the visibility in lower case. When it is
    neither [public] nor [private] the command raises [BadParameter] and
    nothing is sent or printed; otherwise the only request it makes,
    whatever the answer, is a [POST] on [/api/v1/events] at the base URL of
    the context, whose JSON body is the payload built from the arguments
    with the lower-cased visibility; [httpx] tries to send it unless it
    rejects it. *)
Theorem create_event_request ctx title start_time description end_time
    timezone_offset_minutes location channel_name channel_visibility
    is_private admin_approval_required n :
  if String.eqb (lower channel_visibility) "public"
     || String.eqb (lower channel_visibility) "private"
  then
    exists r,
      issued (snd (fst (create_event ctx title start_time description end_time
                          timezone_offset_minutes location channel_name
                          channel_visibility is_private
                          admin_approval_required n)))
      = (issued n ++ (if rejected (respond n r) then [] else [r]))%list
      /\ Http.method r = "POST"
      /\ req_base_url r = fst ctx
      /\ req_path r = "/api/v1/events"
      /\ json r
         = Some (PDict
                   (create_event_payload title start_time description
                      end_time timezone_offset_minutes location
                      channel_name (lower channel_visibility)
                      is_private admin_approval_required))
  else
    create_event ctx title start_time description end_time
      timezone_offset_minutes location channel_name channel_visibility
      is_private admin_approval_required n
    = (Commands.Raised
         (Commands.BadParameter
            "channel-visibility must be 'public' or 'private'."), n, []).
Proof.
  unfold create_event.
  destruct (String.eqb (lower channel_visibility) "public"
            || String.eqb (lower channel_visibility) "private");
    [|reflexivity].
  cbn [negb].
  match goal with
  | |- context [_request ?b ?m ?p ?h ?j ?e n] =>
      pose proof (invite_request_issued b m p h j e n) as Hs;
      cbv zeta in Hs;
      destruct (_request b m p h j e n) as [[[data|err] n'] out]
  end; cbn [fst snd] in Hs; eexists.
  2: split; [exact Hs|]; repeat split.
  destruct (negb (truthy data)); [split; [exact Hs|]; repeat split|].
  destruct (report_created data) as [[u|err] more];
    (split; [exact Hs|]); repeat split.
Qed.

(** X23: the body [create-event] posts always holds the title, the start
    time, the offset, the visibility and the two flags; it holds
    [description], [end_time] and [location] only when they are given and
    not empty, and [channel_name] whenever it is given, also when it is
    empty. *)
Theorem create_event_payload_keys title start_time description end_time
    timezone_offset_minutes location channel_name visibility is_private
    admin_approval_required :
  let payload :=
    create_event_payload title start_time description end_time
      timezone_offset_minutes location channel_name visibility is_private
      admin_approval_required in
  let optional (o : option string) :=
    match o with
    | Some v => if String.eqb v "" then None else Some (PStr v)
    | None => None
    end in
  assoc "title" payload = Some (PStr title)
  /\ assoc "start_time" payload = Some (PStr start_time)
  /\ assoc "timezone_offset_minutes" payload
     = Some (PInt timezone_offset_minutes)
  /\ assoc "channel_visibility" payload = Some (PStr visibility)
  /\ assoc "is_private" payload = Some (PBool is_private)
  /\ assoc "admin_approval_required" payload
     = Some (PBool admin_approval_required)
  /\ assoc "description" payload = optional description
  /\ assoc "end_time" payload = optional end_time
  /\ assoc "location" payload = optional location
  /\ assoc "channel_name" payload = PStr <$> channel_name.
Proof.
  cbv zeta. unfold create_event_payload.
  destruct description as [[|a d]|]; destruct end_time as [[|b e]|];
    destruct location as [[|c l]|]; destruct channel_name as [ch|];
    repeat split.
Qed.

End InviteMore.

(** ** Settings resolver: the optional fields, and failure *)

Module ConfigMore.
Import Py Exn Fs Config.

(** X24: [token] and [default_channel] are resolved like [base_url] but
    have no default: each is the explicit value when it is not empty, else
    the environment variable when it is not empty, else whatever the file
    holds, so a field absent from all three sources is absent from the
    settings. [output_json] and [quiet] are the flags given, untouched by
    environment and file. *)
Theorem load_settings_optional_fields (environ : gmap string string)
    f fc b t c oj q :
  _read_config_file f = Ok fc ->
  exists s,
    load_settings environ f b t c oj q = Ok s
    /\ token s
       = match first_nonempty [t; environ !! "OPENRSVP_TOKEN"] with
         | Some v => Some v
         | None => get fc "token"
         end
    /\ default_channel s
       = match first_nonempty [c; environ !! "OPENRSVP_DEFAULT_CHANNEL"] with
         | Some v => Some v
         | None => get fc "default_channel"
         end
    /\ output_json s = oj
    /\ quiet s = q
    /\ (t = None -> environ !! "OPENRSVP_TOKEN" = None ->
        get fc "token" = None -> token s = None)
    /\ (c = None -> environ !! "OPENRSVP_DEFAULT_CHANNEL" = None ->
        get fc "default_channel" = None -> default_channel s = None).
Proof.
  intros Hf. eexists. split.
  { rewrite ConfigProps.load_settings_resolved, Hf. reflexivity. }
  cbn [token default_channel output_json quiet].
  repeat split; intros -> -> ->; reflexivity.
Qed.

Lemma load_settings_optional_fields_witness :
  exists s,
    load_settings {[ "OPENRSVP_TOKEN" := "from-env" ]}
      (Loaded (PDict [("token", PStr "from-file");
                      ("default_channel", PStr "friends")]))
      None (Some "") None true false = Ok s
    /\ token s = Some "from-env"
    /\ default_channel s = Some "friends"
    /\ output_json s = true
    /\ quiet s = false.
Proof.
  destruct (load_settings_optional_fields
              {[ "OPENRSVP_TOKEN" := "from-env" ]}
              (Loaded (PDict [("token", PStr "from-file");
                              ("default_channel", PStr "friends")]))
              (<["base_url" := None]>
               (<["token" := Some "from-file"]>
                (<["default_channel" := Some "friends"]> ∅)))
              None (Some "") None true false eq_refl)
    as (s & Hs & Ht & Hc & Hj & Hq & _).
  exists s. split; [exact Hs|]. split; [exact Ht|]. split; [exact Hc|].
  split; [exact Hj | exact Hq].
Defined.

(** X25: whatever the arguments and the environment, [load_settings]
    returns settings when the configuration file is not found, when opening
    or loading it raises, and when it loads as a document whose [openrsvp]
    entry is a table or is absent; it raises the [AttributeError] of
    [_read_config_file] when the file loads as a table whose [openrsvp]
    entry is not a table. *)
Theorem load_settings_by_file_outcome (environ : gmap string string)
    f b t c oj q :
  match f with
  | Loaded (PDict kv) =>
      match assoc "openrsvp" kv with
      | Some v =>
          if is_dict v
          then exists s, load_settings environ f b t c oj q = Ok s
          else load_settings environ f b t c oj q
               = Raise (AttributeError "object has no attribute 'get'")
      | None => exists s, load_settings environ f b t c oj q = Ok s
      end
  | _ => exists s, load_settings environ f b t c oj q = Ok s
  end.
Proof.
  rewrite ConfigProps.load_settings_resolved.
  destruct f as [ | e0 | raw]; cbn [_read_config_file mbind result_bind];
    try (eexists; reflexivity).
  destruct raw as [ | | | | | | |kv]; try (eexists; reflexivity).
  unfold dict_get_default.
  destruct (assoc "openrsvp" kv) as [v|]; [|eexists; reflexivity].
  destruct v; cbn [is_dict]; try reflexivity; eexists; reflexivity.
Qed.

End ConfigMore.
